(** * WordListSimilarity: the notebook [similarities.ipynb] in Rocq

    A shallow embedding of the embedding-access code of the notebook
    (class [WordEmbeddings], [embeddings_reader], [read_embeddings],
    [make_embedding_map] and the similarity-matrix loop of the last cell),
    followed by the properties of the specification that concern it.

    Conventions of the embedding.
    - Python [str] values are Rocq [string]s.  The case functions
      [str.lower] and [str.casefold] and the whitespace of [str.split] are
      embedded on the ASCII range, where the case functions act on the
      letters [A]-[Z] only.  Properties that reach beyond ASCII text take
      [str.lower] as a parameter (see [getitem]); properties of the reader
      are stated for ASCII lines.
    - [numpy] arrays of dtype [float32] are lists of IEEE 754 binary32
      numbers, taken from the Standard Library's executable specification
      [SpecFloat] at precision 24 and maximal exponent 128.
    - A Python [dict] keyed by strings is a [gmap string _].
    - Exceptions, [print] and [open] are effects of a small monad [M]:
      a computation yields the trace of the events it performed, and either
      its value or the exception that stopped it. *)

From Stdlib Require Import ZArith List String Ascii Bool Lia.
From Stdlib Require Import Floats.SpecFloat.
From stdpp Require Import gmap strings list fin_maps.

Local Open Scope string_scope.
Local Open Scope list_scope.

(* ===================================================================== *)
(** * Python strings *)
(* ===================================================================== *)

(** One character of [str.lower()] / [str.casefold()], ASCII range. *)
Definition ascii_lower (c : ascii) : ascii :=
  let n := nat_of_ascii c in
  if (65 <=? n)%nat && (n <=? 90)%nat then ascii_of_nat (n + 32) else c.

(** [s.lower()] on ASCII text.  On other text [str.lower] also lowers
    capitals beyond ASCII, which this function leaves as they are; see
    [getitem] for the lookup on such keys. *)
Fixpoint lower (s : string) : string :=
  match s with
  | EmptyString => EmptyString
  | String c s' => String (ascii_lower c) (lower s')
  end.

(** [s.casefold()]; on ASCII text it is [lower]. *)
Definition casefold (s : string) : string := lower s.

(** [s.startswith(p)] *)
Definition startswith (s p : string) : bool := String.prefix p s.

(** The scanning loop of [s.replace(old, new)] for a non-empty [old]:
    left to right, non-overlapping occurrences.  [skip] counts the
    characters of the occurrence just matched that are still to be passed
    over. *)
Fixpoint replace_from (old new : string) (skip : nat) (s : string) : string :=
  match s with
  | EmptyString => EmptyString
  | String c s' =>
      match skip with
      | S k => replace_from old new k s'
      | O =>
          if String.prefix old s
          then new ++ replace_from old new (String.length old - 1) s'
          else String c (replace_from old new 0 s')
      end
  end.

(** [s.replace('', new)]: [new] before every character and at the end. *)
Fixpoint intersperse_str (new s : string) : string :=
  match s with
  | EmptyString => new
  | String c s' => new ++ String c (intersperse_str new s')
  end.

(** [s.replace(old, new)] *)
Definition replace (s old new : string) : string :=
  match old with
  | EmptyString => intersperse_str new s
  | _ => replace_from old new 0 s
  end.

(** [old in s] for a non-empty [old]: it occurs somewhere in [s]. *)
Fixpoint occurs (old s : string) : bool :=
  match s with
  | EmptyString => false
  | String _ s' => String.prefix old s || occurs old s'
  end.

(** [s[start:-back]] for [back >= 1], the slice used by the word2vec loader
    as [word[2:-1]]: from index [start] up to, not including, the last
    [back] characters; empty when the two bounds cross. *)
Definition slice (s : string) (start back : nat) : string :=
  substring start (String.length s - back - start) s.

(** [s.endswith(p)] *)
Definition endswith (s p : string) : bool :=
  String.eqb (substring (String.length s - String.length p) (String.length p) s) p
  && (String.length p <=? String.length s)%nat.

(** [os.path.join(a, b)] (POSIX). *)
Definition join (a b : string) : string :=
  if startswith b "/" then b
  else if String.eqb a "" || endswith a "/" then a ++ b
  else a ++ "/" ++ b.

(* ===================================================================== *)
(** * binary32 numbers and float32 arrays *)
(* ===================================================================== *)

Module F32.
Definition prec : Z := 24.
Definition emax : Z := 128.

Definition t : Type := spec_float.

Definition of_Z (z : Z) : t := binary_normalize prec emax z 0 false.
Definition zero : t := S754_zero false.
Definition one : t := of_Z 1.

Definition add : t -> t -> t := SFadd prec emax.
Definition mul : t -> t -> t := SFmul prec emax.
Definition div : t -> t -> t := SFdiv prec emax.
Definition sqrt : t -> t := SFsqrt prec emax.
Definition ltb : t -> t -> bool := SFltb.

(** [np.finfo(np.float32).eps], that is 2^-23. *)
Definition eps : t := binary_normalize prec emax 1 (-23) false.

(** [np.isfinite] *)
Definition is_finite (x : t) : bool :=
  match x with
  | S754_zero _ | S754_finite _ _ _ => true
  | S754_infinity _ | S754_nan => false
  end.
End F32.

(** A one-dimensional [numpy] array of dtype [float32]. *)
Abbreviation ndarray := (list F32.t).

(* ===================================================================== *)
(** * Effects: exceptions, console output, file opening *)
(* ===================================================================== *)

Inductive exn : Type :=
  | ValueError (msg : string)
  | FileNotFoundError (path : string)
  | KeyError (key : string).

Inductive event : Type :=
  | Open (path : string)      (* [open(path, "r")] *)
  | Printed (line : string).  (* [print(line)] *)

(** A computation: the events performed, and the exception raised or the
    value returned. *)
Definition M (A : Type) : Type := list event * (exn + A).

Definition ret {A} (a : A) : M A := ([], inr a).
Definition raise {A} (e : exn) : M A := ([], inl e).
Definition emit (ev : event) : M unit := ([ev], inr tt).

Definition bind {A B} (m : M A) (k : A -> M B) : M B :=
  match m with
  | (tr, inl e) => (tr, inl e)
  | (tr, inr a) => let '(tr', r) := k a in (tr ++ tr', r)
  end.

Declare Scope py_scope.
Delimit Scope py_scope with py.
Notation "x <- m ;; k" := (bind m (fun x => k))
  (at level 100, m at next level, right associativity) : py_scope.
Local Open Scope py_scope.

(** A [for] loop whose body may raise or print: the state is threaded
    through the elements in order, and an exception ends the loop. *)
Fixpoint for_each {A S} (body : S -> A -> M S) (l : list A) (s : S) : M S :=
  match l with
  | [] => ret s
  | a :: l' => s' <- body s a ;; for_each body l' s'
  end.

(** What a computation returned, if it returned. *)
Definition returned {A} (m : M A) : option A :=
  match m with
  | (_, inr a) => Some a
  | (_, inl _) => None
  end.


(* ===================================================================== *)
(** * Library functions called by the notebook *)
(* ===================================================================== *)

(** [np.vstack(rows)] on one-dimensional arrays: the rows stacked into a
    two-dimensional array, kept here as the list of its rows.  It raises
    [ValueError] on an empty list and on rows of different lengths; the
    text of the second message stands for numpy's longer one, which also
    names the sizes, and nothing is proved from it. *)
Definition vstack (rows : list ndarray) : M (list ndarray) :=
  match rows with
  | [] => raise (ValueError "need at least one array to concatenate")
  | r :: rest =>
      if forallb (fun r' => (length r' =? length r)%nat) rest
      then ret rows
      else raise (ValueError "all the input array dimensions must match")
  end.

(** [sklearn.metrics.pairwise.cosine_similarity] on two arrays of one row
    each, the rows being [x] and [y] (what [v.reshape(1, -1)] makes of a
    stored vector).  The library validates both arrays, scales each row to
    unit Euclidean norm, and returns the matrix product of the first with
    the transpose of the second, a 1x1 array whose entry [.item()]
    extracts. *)
Module Sklearn.

(** [check_array]: every entry finite, at least one feature. *)
Definition check_array (x : ndarray) : M unit :=
  if negb (forallb F32.is_finite x)
  then raise (ValueError "Input contains NaN or infinity")
  else if (length x =? 0)%nat
  then raise (ValueError "Found array with 0 feature(s)")
  else ret tt.

(** [check_pairwise_arrays]: both arrays valid, same number of columns. *)
Definition check_pairwise_arrays (x y : ndarray) : M unit :=
  _ <- check_array x ;;
  _ <- check_array y ;;
  if negb (length x =? length y)%nat
  then raise (ValueError "Incompatible dimension for X and Y matrices")
  else ret tt.

(** [row_norms]: the square root of the sum of the squared entries. *)
Definition row_norm (x : ndarray) : F32.t :=
  F32.sqrt (fold_left (fun acc xi => F32.add acc (F32.mul xi xi)) x F32.zero).

(** [_handle_zeros_in_scale]: a norm below [10 * eps] is replaced by 1. *)
Definition handle_zeros_in_scale (n : F32.t) : F32.t :=
  if F32.ltb n (F32.mul (F32.of_Z 10) F32.eps) then F32.one else n.

(** [normalize(X)] with the default l2 norm, on one row. *)
Definition normalize (x : ndarray) : ndarray :=
  let n := handle_zeros_in_scale (row_norm x) in
  map (fun xi => F32.div xi n) x.

(** The product of a row with a transposed row: the sum of the products
    of the entries, here taken in order and rounded at every step.  The
    library's matrix product may add in another order and so return a
    neighbouring float; what is proved of [dot] holds for every order of
    the additions (symmetry in the two rows, a zero result for a zero
    row). *)
Definition dot (x y : ndarray) : F32.t :=
  fold_left (fun acc ab => F32.add acc (F32.mul (fst ab) (snd ab)))
            (combine x y) F32.zero.

Definition cosine_similarity (x y : ndarray) : M F32.t :=
  _ <- check_pairwise_arrays x y ;;
  ret (dot (normalize x) (normalize y)).

End Sklearn.

(** A cell of a [pandas.DataFrame] of dtype [object]: the [NaN] a frame
    built without data is filled with, or the Python object assigned to the
    cell, here [None] or a float. *)
Inductive cell : Type :=
  | NaN
  | Obj (v : option F32.t).

(** A [pandas.DataFrame] with string labels on both axes.  The cells are
    addressed by (column label, row label), as [df[col][row]] does.  The
    embedding covers frames whose labels are pairwise distinct on each
    axis. *)
Record DataFrame : Type := mkDataFrame {
  columns : list string;
  index : list string;
  cells : gmap (string * string) cell
}.

(** [pd.DataFrame(columns=cols, index=idx)]: every cell is [NaN]. *)
Definition DataFrame_new (cols idx : list string) : DataFrame :=
  {| columns := cols;
     index := idx;
     cells := list_to_map (map (fun k => (k, NaN)) (list_prod cols idx)) |}.

(** [df[col][row] = v]: [df[col]] selects the column ([KeyError] when there
    is none); the assignment then writes the entry labelled [row] of that
    column, and the write reaches the frame (the column object shares the
    frame's data, as in the pandas versions without copy-on-write that the
    notebook ran on).  A label that is not in the index enlarges only the
    selected column object and leaves the frame as it was. *)
Definition DataFrame_setitem (df : DataFrame) (col row : string)
    (v : option F32.t) : M DataFrame :=
  if bool_decide (col ∈ columns df) then
    if bool_decide (row ∈ index df)
    then ret {| columns := columns df; index := index df;
                cells := <[(col, row) := Obj v]> (cells df) |}
    else ret df
  else raise (KeyError col).

(** [list(itertools.product(l, repeat=2))] *)
Definition product2 {A} (l : list A) : list (A * A) := list_prod l l.

(* ===================================================================== *)
(** * The notebook *)
(* ===================================================================== *)

(** The files of the machine: what [embeddings_reader] yields from a path,
    or [None] where [open] fails.  A row is the first whitespace-separated
    token of a line and the remaining tokens converted to [float32].  A
    file with a line that has no token, or a token that is no number,
    makes the reader raise while it is drawn; such files are not described
    by this type. *)
Definition filesystem : Type := string -> option (list (string * ndarray)).

(** [embeddings_reader(file_name)], with all rows drawn. *)
Definition embeddings_reader (fs : filesystem) (file_name : string)
    : M (list (string * ndarray)) :=
  _ <- emit (Open file_name) ;;
  match fs file_name with
  | None => raise (FileNotFoundError file_name)
  | Some rows => ret rows
  end.

(** The language prefix of the ConceptNet branch. *)
Definition prefix : string := "/c/de/".

(** [read_embeddings(embedding_type, base_dir)].  Each branch appends to
    the two lists [word_vectors] and [vector_labels], row by row. *)
Definition read_embeddings (fs : filesystem) (embedding_type base_dir : string)
    : M (list ndarray * list string) :=
  if String.eqb (casefold embedding_type) "word2vec" then
    let w2w_path := join base_dir "ger_word2vec_vectors.txt" in
    rows <- embeddings_reader fs w2w_path ;;
    ret (fold_left
           (fun acc row =>
              let '(word_vectors, vector_labels) := acc in
              let '(word, coefs) := row in
              (word_vectors ++ [coefs], vector_labels ++ [slice word 2 1]))
           rows ([], []))
  else if String.eqb (casefold embedding_type) "glove" then
    let glove_path := join base_dir "ger_glove_vectors.txt" in
    rows <- embeddings_reader fs glove_path ;;
    let '(word_vectors, vector_labels) :=
      fold_left
        (fun acc row =>
           let '(word_vectors, vector_labels) := acc in
           let '(word, coefs) := row in
           (word_vectors ++ [coefs], vector_labels ++ [word]))
        rows ([], []) in
    word_vectors <- vstack word_vectors ;;
    ret (word_vectors, vector_labels)
  else if existsb (String.eqb (casefold embedding_type))
                  ["conceptnetnb"; "conceptnet"] then
    let cnnb_path := join base_dir "conceptnet_vectors.txt" in
    rows <- embeddings_reader fs cnnb_path ;;
    ret (fold_left
           (fun acc row =>
              let '(word_vectors, vector_labels) := acc in
              let '(word, coefs) := row in
              if startswith word prefix
              then (word_vectors ++ [coefs],
                    vector_labels ++ [replace word prefix ""])
              else (word_vectors, vector_labels))
           rows ([], []))
  else
    raise (ValueError ("invalid embedding type " ++ embedding_type
             ++ ": Choose either word2vec, GloVe or ConceptNetNB!")).

(** [dict(pairs)]: the pairs are inserted in order, so a later pair
    replaces an earlier one with the same key. *)
Definition py_dict {V} (pairs : list (string * V)) : gmap string V :=
  fold_left (fun m kv => <[fst kv := snd kv]> m) pairs ∅.

(** [make_embedding_map(word_vectors, vector_labels)] *)
Definition make_embedding_map (word_vectors : list ndarray)
    (vector_labels : list string) : gmap string ndarray :=
  let embedding_map := py_dict (combine vector_labels word_vectors) in
  embedding_map.

(** An instance of class [WordEmbeddings]: its four attributes. *)
Record WordEmbeddings : Type := mkWordEmbeddings {
  embedding_type : string;
  word_vectors : list ndarray;
  vector_labels : list string;
  dict : gmap string ndarray
}.

(** [WordEmbeddings(embedding_type, base_dir)], that is [__init__]. *)
Definition __init__ (fs : filesystem) (embedding_type base_dir : string)
    : M WordEmbeddings :=
  r <- read_embeddings fs embedding_type base_dir ;;
  let '(word_vectors, vector_labels) := r in
  ret {| embedding_type := embedding_type;
         word_vectors := word_vectors;
         vector_labels := vector_labels;
         dict := make_embedding_map word_vectors vector_labels |}.

(** The values an attribute of the instance can hold. *)
Inductive attr : Type :=
  | AStr (s : string)
  | AVectors (vs : list ndarray)
  | ALabels (ls : list string)
  | ADict (d : gmap string ndarray).

(** [self.__dict__]: the attribute dictionary of the instance, filled by
    the three assignments of [__init__] in their order. *)
Definition __dict__ (self : WordEmbeddings) : gmap string attr :=
  <["dict" := ADict (dict self)]>
    (<["vector_labels" := ALabels (vector_labels self)]>
       (<["word_vectors" := AVectors (word_vectors self)]>
          (<["embedding_type" := AStr (embedding_type self)]> ∅))).

(** [self[key]] *)
Definition __getitem__ (self : WordEmbeddings) (key : string) : option ndarray :=
  let key :=
    if existsb (String.eqb (lower (embedding_type self)))
               ["word2vec"; "glove"; "conceptnet"; "conceptnetnb"]
    then lower key
    else key in
  dict self !! key.

(** [self.get_cosine_similarity(w1, w2)].  The two [reshape(1, -1)] calls
    turn each vector into an array of one row, and [.item()] takes the
    single entry of the 1x1 result: both are part of how
    [Sklearn.cosine_similarity] is embedded. *)
Definition get_cosine_similarity (self : WordEmbeddings) (w1 w2 : string)
    : M (option F32.t) :=
  match __getitem__ self w1 with
  | None =>
      _ <- emit (Printed ("no vectors for word " ++ w1)) ;;
      ret None
  | Some v1 =>
      match __getitem__ self w2 with
      | None =>
          _ <- emit (Printed ("no vectors for word " ++ w2)) ;;
          ret None
      | Some v2 =>
          k <- Sklearn.cosine_similarity v1 v2 ;;
          ret (Some k)
      end
  end.

(** [len(self)] *)
Definition __len__ (self : WordEmbeddings) : nat := size (__dict__ self).

(** The similarity-matrix loop of the last cell, for one word list:
    the frame is created, then filled pair by pair. *)
Definition similarity_matrix (embeddings : WordEmbeddings)
    (list_words : list string) : M DataFrame :=
  let df := DataFrame_new list_words list_words in
  let word_combinations := product2 list_words in
  for_each
    (fun df w12 =>
       let '(w1, w2) := w12 in
       s <- get_cosine_similarity embeddings w1 w2 ;;
       DataFrame_setitem df w1 w2 s)
    word_combinations df.

(** The value [get_cosine_similarity] hands to its caller: the float, or
    [None] for the missing marker (and when the call raised). *)
Definition similarity_value (self : WordEmbeddings) (w1 w2 : string)
    : option F32.t :=
  match returned (get_cosine_similarity self w1 w2) with
  | Some s => s
  | None => None
  end.

(** The table invariant of the data model: all stored vectors have one
    common, non-zero length, and hold finite numbers only. *)
Definition table_ok (self : WordEmbeddings) : Prop :=
  exists d : nat, d <> 0%nat /\
    forall (w : string) (v : ndarray), dict self !! w = Some v ->
      length v = d /\ forallb F32.is_finite v = true.

(** The pairs of rows [cosine_similarity] accepts: finite entries, at
    least one entry each, equal lengths. *)
Definition valid_pair (x y : ndarray) : bool :=
  forallb F32.is_finite x && negb (length x =? 0)%nat &&
  forallb F32.is_finite y && negb (length y =? 0)%nat &&
  (length x =? length y)%nat.

(** A vector all of whose entries are (positive or negative) zero. *)
Definition is_zero_vector (v : ndarray) : bool :=
  forallb (fun x => match x with S754_zero _ => true | _ => false end) v.

(** The source identifiers [read_embeddings] knows, case-folded. *)
Definition recognized (embedding_type : string) : Prop :=
  In (casefold embedding_type) ["word2vec"; "glove"; "conceptnet"; "conceptnetnb"].

(** Concrete data for the examples. *)
Module Data.
Definition v10 : ndarray := [F32.of_Z 1; F32.of_Z 0].
Definition v34 : ndarray := [F32.of_Z 3; F32.of_Z 4].
Definition v00 : ndarray := [F32.zero; F32.zero].

Definition base_dir : string := "./word_vectors".

Definition fs (name : string) (rows : list (string * ndarray)) : filesystem :=
  fun path => if String.eqb path (join base_dir name) then Some rows else None.

(** A GloVe file with a capitalised label, a repeated label and a zero
    vector. *)
Definition glove_fs : filesystem :=
  fs "ger_glove_vectors.txt"
     [("haus", v10); ("Baum", v34); ("nul", v00); ("haus", v34)].

Definition glove_store : WordEmbeddings :=
  {| embedding_type := "GloVe";
     word_vectors := [v10; v34; v00; v34];
     vector_labels := ["haus"; "Baum"; "nul"; "haus"];
     dict := make_embedding_map [v10; v34; v00; v34]
                                ["haus"; "Baum"; "nul"; "haus"] |}.

(** A ConceptNet file: a German row, a row of another language, and a
    German row whose term contains the prefix once more. *)
Definition conceptnet_fs : filesystem :=
  fs "conceptnet_vectors.txt"
     [("/c/de/Baum", v10); ("/c/en/tree", v34); ("/c/de/a/c/de/b", v34)].

(** A word2vec file, labels wrapped as [b'...']. *)
Definition word2vec_fs : filesystem :=
  fs "ger_word2vec_vectors.txt" [("b'mond'", v10); ("b'sonne'", v34)].

Definition word2vec_store : WordEmbeddings :=
  {| embedding_type := "word2vec";
     word_vectors := [v10; v34];
     vector_labels := ["mond"; "sonne"];
     dict := make_embedding_map [v10; v34] ["mond"; "sonne"] |}.
End Data.

(* ===================================================================== *)
(** * The reader, line by line *)
(* ===================================================================== *)

(** [c.isspace()] on the ASCII range: tab to carriage return, the four
    separators 28 to 31, and the space.  Whitespace beyond ASCII (U+0085,
    U+00A0 and others) is not known to it. *)
Definition is_space (c : ascii) : bool :=
  let n := nat_of_ascii c in
  ((9 <=? n)%nat && (n <=? 13)%nat) || ((28 <=? n)%nat && (n <=? 31)%nat)
  || (n =? 32)%nat.

(** The scanning loop of [line.split()]: [tok] is the token being read. *)
Fixpoint split_from (tok : string) (s : string) : list string :=
  match s with
  | EmptyString => match tok with EmptyString => [] | _ => [tok] end
  | String c s' =>
      if is_space c
      then match tok with
           | EmptyString => split_from EmptyString s'
           | _ => tok :: split_from EmptyString s'
           end
      else split_from (tok ++ String c EmptyString) s'
  end.

(** [line.split()] on a line of ASCII text: the maximal runs of
    non-whitespace characters. *)
Definition split (line : string) : list string := split_from EmptyString line.

(** What stops the reader inside a line. *)
Inductive reader_exn : Type :=
  | IndexError                          (* [values[0]] on an empty list *)
  | FloatValueError (token : string).   (* a token that is no number *)

Section Reader.

(** The conversion of one token to [float32] that [np.asarray] applies,
    [None] where the token is no number. *)
Variable float32 : string -> option F32.t.

(** [np.asarray(values, dtype='float32')] on a list of tokens. *)
Fixpoint asarray (values : list string) : reader_exn + ndarray :=
  match values with
  | [] => inr []
  | tok :: values' =>
      match float32 tok with
      | None => inl (FloatValueError tok)
      | Some x =>
          match asarray values' with
          | inl e => inl e
          | inr coefs => inr (x :: coefs)
          end
      end
  end.

(** The body of the loop of [embeddings_reader], for one line. *)
Definition read_line (line : string) : reader_exn + (string * ndarray) :=
  let values := split line in
  match values with
  | [] => inl IndexError
  | word :: rest =>
      match asarray rest with
      | inl e => inl e
      | inr coefs => inr (word, coefs)
      end
  end.

(** All the rows of [embeddings_reader] drawn from the lines of a file;
    the first line that raises ends the reading. *)
Fixpoint read_lines (lines : list string)
    : reader_exn + list (string * ndarray) :=
  match lines with
  | [] => inr []
  | line :: lines' =>
      match read_line line with
      | inl e => inl e
      | inr row =>
          match read_lines lines' with
          | inl e => inl e
          | inr rows => inr (row :: rows)
          end
      end
  end.

End Reader.

(** A string without whitespace. *)
Fixpoint no_space (s : string) : bool :=
  match s with
  | EmptyString => true
  | String c s' => negb (is_space c) && no_space s'
  end.

(** A string of whitespace only. *)
Fixpoint all_space (s : string) : bool :=
  match s with
  | EmptyString => true
  | String c s' => is_space c && all_space s'
  end.

(** A token as [split] yields them: not empty, no whitespace. *)
Definition is_token (s : string) : bool :=
  negb (String.eqb s "") && no_space s.

(** A line written as its tokens, one space before every token but the
    first, and a newline at the end. *)
Definition write_line (word : string) (tokens : list string) : string :=
  (word ++ fold_right (fun t rest => " " ++ t ++ rest) (String "010" "") tokens)%string.

(* ===================================================================== *)
(** * The last cell as a whole *)
(* ===================================================================== *)

(** The events of a run: those of the store, and the files written by
    [df.to_csv(fname)]. *)
Inductive run_event : Type :=
  | Core (ev : event)
  | ToCsv (fname : string) (df : DataFrame).

Definition R (A : Type) : Type := list run_event * (exn + A).

Definition lift {A} (m : M A) : R A := (map Core (fst m), snd m).

Definition bindR {A B} (m : R A) (k : A -> R B) : R B :=
  match m with
  | (tr, inl e) => (tr, inl e)
  | (tr, inr a) => let '(tr', r) := k a in (tr ++ tr', r)
  end.

Notation "x <~ m ;; k" := (bindR m (fun x => k))
  (at level 100, m at next level, right associativity) : py_scope.

Definition print (line : string) : R unit := ([Core (Printed line)], inr tt).

(** [df.to_csv(fname)], into an existing directory. *)
Definition to_csv (df : DataFrame) (fname : string) : R unit :=
  ([ToCsv fname df], inr tt).

(** A [for] loop over a list, with a body that may raise. *)
Fixpoint for_in {A} (body : A -> R unit) (l : list A) : R unit :=
  match l with
  | [] => ([], inr tt)
  | a :: l' => _ <~ body a ;; for_in body l'
  end.

(** The body of the inner loop: one word list with one store. *)
Definition process_list (embeddings : WordEmbeddings) (embedding_type : string)
    (named_list : string * list string) : R unit :=
  let '(list_name, list_words) := named_list in
  let key := (list_name ++ "_" ++ embedding_type)%string in
  _ <~ print ("compute similarities for " ++ list_name ++ " with "
              ++ embedding_type ++ " embeddings") ;;
  df <~ lift (similarity_matrix embeddings list_words) ;;
  let fname := join "./out" (key ++ ".csv")%string in
  _ <~ print ("save to file " ++ fname) ;;
  to_csv df fname.

(** The body of the outer loop: one embedding source, all word lists. *)
Definition process_source (fs : filesystem)
    (named_lists : list (string * list string)) (embedding_type : string)
    : R unit :=
  _ <~ print ("Load " ++ embedding_type ++ " embeddings...") ;;
  embeddings <~ lift (__init__ fs embedding_type "./word_vectors") ;;
  for_in (process_list embeddings embedding_type) named_lists.

(** The last cell: the sources in order. *)
Definition run (fs : filesystem) (embedding_types : list string)
    (named_lists : list (string * list string)) : R unit :=
  for_in (process_source fs named_lists) embedding_types.

(** The files a run wrote, in order, each with the frame written. *)
Definition written (tr : list run_event) : list (string * DataFrame) :=
  flat_map (fun ev => match ev with ToCsv fname df => [(fname, df)] | Core _ => [] end) tr.

(** The number of words of a list that the store finds. *)
Definition found_count (self : WordEmbeddings) (l : list string) : nat :=
  length (List.filter (fun w => bool_decide (is_Some (__getitem__ self w))) l).

(** The lines a computation printed. *)
Definition printed {A} (m : M A) : list string :=
  flat_map (fun ev => match ev with Printed line => [line] | Open _ => [] end) (fst m).

(** More data for the examples. *)
Module Data2.
(** A toy conversion for the examples: the digits 0 to 4. *)
Definition float32 (tok : string) : option F32.t :=
  if String.eqb tok "0" then Some (F32.of_Z 0)
  else if String.eqb tok "1" then Some (F32.of_Z 1)
  else if String.eqb tok "3" then Some (F32.of_Z 3)
  else if String.eqb tok "4" then Some (F32.of_Z 4)
  else None.

(** A GloVe file whose rows have different lengths. *)
Definition ragged_fs : filesystem :=
  Data.fs "ger_glove_vectors.txt" [("haus", Data.v10); ("baum", [F32.one])].

(** Files that are there but empty. *)
Definition empty_fs : filesystem := fun _ => Some [].

(** No file at all. *)
Definition no_fs : filesystem := fun _ => None.

(** A word2vec store with a vector of another length, as the header line
    of a word2vec text file leaves one. *)
Definition mixed_store : WordEmbeddings :=
  {| embedding_type := "word2vec";
     word_vectors := [[F32.of_Z 3]; Data.v10; Data.v34];
     vector_labels := ["2"; "mond"; "sonne"];
     dict := make_embedding_map [[F32.of_Z 3]; Data.v10; Data.v34]
                                ["2"; "mond"; "sonne"] |}.

Definition named_lists : list (string * list string) :=
  [("List_A", ["Mond"; "Sonne"]); ("List_C", ["Sonne"; "See"])].
End Data2.

(* ===================================================================== *)
(** * Text beyond ASCII *)
(* ===================================================================== *)

(** A [string] holds the text of a Python [str] byte by byte, the
    characters beyond the ASCII range in their UTF-8 encoding.  The
    functions [lower], [is_space] and [split] above are those of Python on
    ASCII text only.  What is proved about other text takes Python's
    [str.lower] as a parameter [str_lower], known only to agree with
    [lower] on ASCII text; what is proved about the reader is stated for
    ASCII lines. *)

(** A text of ASCII characters only. *)
Fixpoint is_ascii (s : string) : bool :=
  match s with
  | EmptyString => true
  | String c s' => (nat_of_ascii c <? 128)%nat && is_ascii s'
  end.

(** A case function that does on ASCII text what [str.lower] does. *)
Definition lowers_ascii (str_lower : string -> string) : Prop :=
  forall s, is_ascii s = true -> str_lower s = lower s.

(** [self[key]], with [str.lower] as the parameter [str_lower]: the method
    of the class on keys of any text.  [__getitem__] is its instance at
    [lower]. *)
Definition getitem (str_lower : string -> string) (self : WordEmbeddings)
    (key : string) : option ndarray :=
  let key :=
    if existsb (String.eqb (str_lower (embedding_type self)))
               ["word2vec"; "glove"; "conceptnet"; "conceptnetnb"]
    then str_lower key
    else key in
  dict self !! key.

(** A token of ASCII characters: not empty, no whitespace. *)
Definition is_word (s : string) : bool := is_token s && is_ascii s.

(** A case function for the examples: [str.lower] on UTF-8 text whose
    letters are ASCII or lie between U+00C0 and U+00DE (the second byte of
    such a capital, after the byte 195, is raised by 32; U+00D7 is no
    letter). *)
Fixpoint lower_latin_from (after_195 : bool) (s : string) : string :=
  match s with
  | EmptyString => EmptyString
  | String c s' =>
      let n := nat_of_ascii c in
      if after_195 && (128 <=? n)%nat && (n <=? 158)%nat && negb (n =? 151)%nat
      then String (ascii_of_nat (n + 32)) (lower_latin_from false s')
      else String (ascii_lower c) (lower_latin_from (n =? 195)%nat s')
  end.

Definition lower_latin (s : string) : string := lower_latin_from false s.

(** Data beyond ASCII for the examples. *)
Module Data3.
(** A GloVe file with a capitalised and a lowercase label that hold
    umlauts. *)
Definition umlaut_fs : filesystem :=
  Data.fs "ger_glove_vectors.txt" [("Über", Data.v10); ("tür", Data.v34)].

Definition umlaut_store : WordEmbeddings :=
  {| embedding_type := "GloVe";
     word_vectors := [Data.v10; Data.v34];
     vector_labels := ["Über"; "tür"];
     dict := make_embedding_map [Data.v10; Data.v34] ["Über"; "tür"] |}.

(** A word2vec file whose first row, as the header line of a word2vec
    text file gives one, has a vector of another length. *)
Definition mixed_fs : filesystem :=
  Data.fs "ger_word2vec_vectors.txt"
          [("b'2'", [F32.of_Z 3]); ("b'mond'", Data.v10); ("b'sonne'", Data.v34)].
End Data3.

(* ===================================================================== *)
(** * Properties *)
(* ===================================================================== *)

(** ** The effect monad *)

Lemma bind_ret_l {A B} (a : A) (k : A -> M B) : bind (ret a) k = k a.
Proof. unfold bind, ret. destruct (k a) as [tr r]. reflexivity. Qed.

Lemma bind_raise {A B} (e : exn) (k : A -> M B) : bind (raise e) k = raise e.
Proof. reflexivity. Qed.

Lemma bind_returns {A B} (m : M A) (k : A -> M B) tr a tr' b :
  m = (tr, inr a) -> k a = (tr', inr b) -> bind m k = (tr ++ tr', inr b).
Proof. intros -> Hk. unfold bind. rewrite Hk. reflexivity. Qed.

Lemma bind_inv_returns {A B} (m : M A) (k : A -> M B) tr b :
  bind m k = (tr, inr b) ->
  exists tr1 a tr2, m = (tr1, inr a) /\ k a = (tr2, inr b) /\ tr = tr1 ++ tr2.
Proof.
  destruct m as [tr1 [e | a]]; simpl; [discriminate |].
  destruct (k a) as [tr2 r] eqn:Hk. intros [= <- ->].
  exists tr1, a, tr2. auto.
Qed.

(** ** Python strings *)

Example lower_Haus : lower "Haus" = "haus" /\ lower "HAUS" = "haus" /\ lower "haus" = "haus".
Proof. repeat split. Qed.

Example slice_word2vec : slice "b'Baum'" 2 1 = "Baum" /\ slice "ab" 2 1 = "".
Proof. split; reflexivity. Qed.

Example replace_examples :
  replace "/c/de/Baum" prefix "" = "Baum" /\
  replace "aaa" "aa" "b" = "ba" /\
  replace "abc" "" "x" = "xaxbxcx".
Proof. repeat split. Qed.

Example join_examples :
  join "./word_vectors" "f.txt" = "./word_vectors/f.txt" /\
  join "dir/" "f.txt" = "dir/f.txt" /\ join "" "f.txt" = "f.txt".
Proof. repeat split. Qed.

Lemma prefix_app (p s : string) : String.prefix p (p ++ s)%string = true.
Proof.
  induction p as [| c p IH]; simpl.
  - destruct s; reflexivity.
  - destruct (ascii_dec c c); [exact IH | congruence].
Qed.

Lemma prefix_split (p s : string) :
  String.prefix p s = true -> exists rest, s = (p ++ rest)%string.
Proof.
  revert s. induction p as [| c p IH]; intros s H.
  - exists s. reflexivity.
  - destruct s as [| c' s]; simpl in H; [discriminate |].
    destruct (ascii_dec c c') as [<- |]; [| discriminate].
    destruct (IH s H) as [rest ->]. exists rest. reflexivity.
Qed.

(** Passing over the rest of a matched occurrence. *)
Lemma replace_from_skip (old new p s : string) :
  replace_from old new (String.length p) (p ++ s)%string = replace_from old new 0 s.
Proof.
  induction p as [| c p IH]; simpl.
  - destruct s; reflexivity.
  - exact IH.
Qed.

(** [replace] removes a leading occurrence and goes on with the rest of
    the string: occurrences further right are removed as well. *)
Lemma replace_leading (old new rest : string) :
  old <> "" ->
  replace (old ++ rest)%string old new = (new ++ replace rest old new)%string.
Proof.
  intros Hne. unfold replace.
  destruct old as [| c old]; [congruence |].
  change (String c old ++ rest)%string with (String c (old ++ rest)%string).
  cbn [replace_from].
  change (String c (old ++ rest)%string) with (String c old ++ rest)%string.
  rewrite prefix_app.
  cbn [String.length].
  replace (S (String.length old) - 1)%nat with (String.length old) by lia.
  rewrite replace_from_skip. reflexivity.
Qed.

(** Where [old] does not occur, [replace] changes nothing. *)
Lemma replace_absent (old new s : string) :
  old <> "" -> occurs old s = false -> replace s old new = s.
Proof.
  intros Hne. unfold replace. destruct old as [| c old]; [congruence |].
  induction s as [| a s IH]; [reflexivity |].
  cbn [occurs]. intros H. apply orb_false_elim in H as [Hp Hs].
  cbn [replace_from]. rewrite Hp. f_equal. exact (IH Hs).
Qed.

(** The label the ConceptNet branch stores for an accepted raw label: the
    raw label is the prefix followed by some rest, and the stored label is
    [replace] applied to that rest; it is the rest itself when the prefix
    does not occur in it a second time. *)
Lemma conceptnet_label (word : string) :
  startswith word prefix = true ->
  exists rest,
    word = (prefix ++ rest)%string /\
    replace word prefix "" = replace rest prefix "" /\
    (occurs prefix rest = false -> replace word prefix "" = rest).
Proof.
  intros H. apply prefix_split in H as [rest ->]. exists rest.
  assert (Hlead : replace (prefix ++ rest) prefix "" = replace rest prefix "").
  { rewrite replace_leading by discriminate. reflexivity. }
  split_and!; [reflexivity | exact Hlead |].
  intros Hno. rewrite Hlead. apply replace_absent; [discriminate | exact Hno].
Qed.

(** ** The loaders *)

Lemma embeddings_reader_some fs file_name rows :
  fs file_name = Some rows ->
  embeddings_reader fs file_name = ([Open file_name], inr rows).
Proof. intros H. unfold embeddings_reader. rewrite H. reflexivity. Qed.

(** The rows the ConceptNet branch keeps. *)
Lemma conceptnet_loop (rows : list (string * ndarray)) wv vl :
  fold_left
    (fun (acc : list ndarray * list string) (row : string * ndarray) =>
       let '(word_vectors, vector_labels) := acc in
       let '(word, coefs) := row in
       if startswith word prefix
       then (word_vectors ++ [coefs], vector_labels ++ [replace word prefix ""])
       else (word_vectors, vector_labels))
    rows (wv, vl)
  = (wv ++ map snd (List.filter (fun r => startswith (fst r) prefix) rows),
     vl ++ map (fun r => replace (fst r) prefix "")
               (List.filter (fun r => startswith (fst r) prefix) rows)).
Proof.
  revert wv vl. induction rows as [| [word coefs] rows IH]; intros wv vl.
  - simpl. rewrite !app_nil_r. reflexivity.
  - cbn [fold_left List.filter fst].
    destruct (startswith word prefix).
    + rewrite IH. cbn [map fst snd]. rewrite <- !app_assoc. reflexivity.
    + apply IH.
Qed.

(** The ConceptNet branch as a whole: one file is opened; the rows whose
    raw label starts with the prefix are kept, in order, and no other row
    is; the label of a kept row is [replace] applied to the raw label. *)
Lemma read_embeddings_conceptnet fs et base rows :
  In (casefold et) ["conceptnetnb"; "conceptnet"] ->
  fs (join base "conceptnet_vectors.txt") = Some rows ->
  read_embeddings fs et base
  = ([Open (join base "conceptnet_vectors.txt")],
     inr (map snd (List.filter (fun r => startswith (fst r) prefix) rows),
          map (fun r => replace (fst r) prefix "")
              (List.filter (fun r => startswith (fst r) prefix) rows))).
Proof.
  intros Het Hfs. unfold read_embeddings.
  assert (Hcase : String.eqb (casefold et) "word2vec" = false /\
                  String.eqb (casefold et) "glove" = false /\
                  existsb (String.eqb (casefold et)) ["conceptnetnb"; "conceptnet"] = true).
  { destruct Het as [<- | [<- | []]]; repeat split. }
  destruct Hcase as (-> & -> & ->).
  rewrite (embeddings_reader_some _ _ _ Hfs).
  unfold bind, ret. rewrite conceptnet_loop. reflexivity.
Qed.

(** A row is accepted by the ConceptNet branch exactly when its raw label
    starts with the prefix. *)
Lemma conceptnet_accepts_iff (rows : list (string * ndarray)) word coefs :
  In (word, coefs) (List.filter (fun r => startswith (fst r) prefix) rows)
  <-> In (word, coefs) rows /\ startswith word prefix = true.
Proof. rewrite filter_In. reflexivity. Qed.

(** The word2vec branch: every row is kept, its label sliced. *)
Lemma word2vec_loop (rows : list (string * ndarray)) wv vl :
  fold_left
    (fun (acc : list ndarray * list string) (row : string * ndarray) =>
       let '(word_vectors, vector_labels) := acc in
       let '(word, coefs) := row in
       (word_vectors ++ [coefs], vector_labels ++ [slice word 2 1]))
    rows (wv, vl)
  = (wv ++ map snd rows, vl ++ map (fun r => slice (fst r) 2 1) rows).
Proof.
  revert wv vl. induction rows as [| [word coefs] rows IH]; intros wv vl.
  - simpl. rewrite !app_nil_r. reflexivity.
  - cbn [fold_left]. rewrite IH. cbn [map fst snd].
    rewrite <- !app_assoc. reflexivity.
Qed.

(** The GloVe branch: every row is kept, its label unchanged. *)
Lemma glove_loop (rows : list (string * ndarray)) wv vl :
  fold_left
    (fun (acc : list ndarray * list string) (row : string * ndarray) =>
       let '(word_vectors, vector_labels) := acc in
       let '(word, coefs) := row in
       (word_vectors ++ [coefs], vector_labels ++ [word]))
    rows (wv, vl)
  = (wv ++ map snd rows, vl ++ map fst rows).
Proof.
  revert wv vl. induction rows as [| [word coefs] rows IH]; intros wv vl.
  - simpl. rewrite !app_nil_r. reflexivity.
  - cbn [fold_left]. rewrite IH. cbn [map fst snd].
    rewrite <- !app_assoc. reflexivity.
Qed.

(** The word2vec branch as a whole. *)
Lemma read_embeddings_word2vec fs et base rows :
  casefold et = "word2vec" ->
  fs (join base "ger_word2vec_vectors.txt") = Some rows ->
  read_embeddings fs et base
  = ([Open (join base "ger_word2vec_vectors.txt")],
     inr (map snd rows, map (fun r => slice (fst r) 2 1) rows)).
Proof.
  intros Het Hfs. unfold read_embeddings. rewrite Het. cbn [String.eqb].
  change (String.eqb "word2vec" "word2vec") with true. cbv iota.
  rewrite (embeddings_reader_some _ _ _ Hfs).
  unfold bind, ret. rewrite word2vec_loop. reflexivity.
Qed.

(** The GloVe branch as a whole: the labels are stored as they are read,
    capitals included. *)
Lemma read_embeddings_glove fs et base rows vs :
  casefold et = "glove" ->
  fs (join base "ger_glove_vectors.txt") = Some rows ->
  vstack (map snd rows) = ([], inr vs) ->
  read_embeddings fs et base
  = ([Open (join base "ger_glove_vectors.txt")], inr (vs, map fst rows)).
Proof.
  intros Het Hfs Hvs. unfold read_embeddings. rewrite Het.
  change (String.eqb "glove" "word2vec") with false.
  change (String.eqb "glove" "glove") with true. cbv iota.
  rewrite (embeddings_reader_some _ _ _ Hfs).
  unfold bind at 1. rewrite glove_loop. cbn [app].
  rewrite Hvs. reflexivity.
Qed.

(** [read_embeddings] returns only for a recognized source identifier. *)
Lemma read_embeddings_returns_recognized fs et base tr r :
  read_embeddings fs et base = (tr, inr r) -> recognized et.
Proof.
  unfold read_embeddings, recognized. intros H.
  destruct (String.eqb (casefold et) "word2vec") eqn:E1.
  { apply String.eqb_eq in E1. rewrite E1. simpl. auto. }
  destruct (String.eqb (casefold et) "glove") eqn:E2.
  { apply String.eqb_eq in E2. rewrite E2. simpl. auto. }
  destruct (existsb (String.eqb (casefold et)) ["conceptnetnb"; "conceptnet"]) eqn:E3.
  - apply existsb_exists in E3. destruct E3 as (x & Hx & Heq).
    apply String.eqb_eq in Heq. subst x.
    destruct Hx as [<- | [<- | []]]; simpl; auto.
  - discriminate H.
Qed.

Lemma init_returns_recognized fs et base tr self :
  __init__ fs et base = (tr, inr self) ->
  recognized et /\ embedding_type self = et.
Proof.
  unfold __init__. intros H.
  apply bind_inv_returns in H. destruct H as (tr1 & [wv vl] & tr2 & Hr & Hk & _).
  split; [eapply read_embeddings_returns_recognized; eauto |].
  unfold ret in Hk. injection Hk as _ Hs. subst self. reflexivity.
Qed.

(** In a constructed store, lookup lowercases its key. *)
Lemma getitem_constructed fs et base tr self key :
  __init__ fs et base = (tr, inr self) ->
  __getitem__ self key = dict self !! lower key.
Proof.
  intros H. apply init_returns_recognized in H. destruct H as [Hrec Het].
  unfold __getitem__, recognized, casefold in *. rewrite Het.
  replace (existsb (String.eqb (lower et))
                   ["word2vec"; "glove"; "conceptnet"; "conceptnetnb"]) with true;
    [reflexivity |].
  symmetry. apply existsb_exists. exists (lower et). split; [exact Hrec |].
  apply String.eqb_refl.
Qed.

Example init_glove :
  __init__ Data.glove_fs "GloVe" Data.base_dir
  = ([Open "./word_vectors/ger_glove_vectors.txt"], inr Data.glove_store).
Proof. reflexivity. Qed.

Example init_word2vec :
  __init__ Data.word2vec_fs "word2vec" Data.base_dir
  = ([Open "./word_vectors/ger_word2vec_vectors.txt"], inr Data.word2vec_store).
Proof. reflexivity. Qed.

(** C1 (evaluation of the code where it departs from the claim).  The
    ConceptNet branch keeps exactly the rows whose raw label starts with
    [/c/de/]: [/c/de/Baum] becomes [Baum] and [/c/en/tree] is dropped.  But
    the label is computed by [replace], which deletes every occurrence of
    the prefix: the raw label [/c/de/a/c/de/b], that is the prefix followed
    by [a/c/de/b], is stored as [ab] and not as [a/c/de/b]. *)
Theorem C1_conceptnet_replace_deletes_inner_prefix :
  startswith "/c/de/a/c/de/b" prefix = true /\
  "/c/de/a/c/de/b" = (prefix ++ "a/c/de/b")%string /\
  read_embeddings Data.conceptnet_fs "ConceptNet" Data.base_dir
  = ([Open "./word_vectors/conceptnet_vectors.txt"],
     inr ([Data.v10; Data.v34], ["Baum"; "ab"])) /\
  "ab" <> "a/c/de/b".
Proof. repeat split. discriminate. Qed.

(** C5.  A source identifier whose case-folded form is none of [word2vec],
    [glove], [conceptnet], [conceptnetnb] makes [read_embeddings], and with
    it the construction of the store, raise [ValueError] with the message
    that names word2vec, GloVe and ConceptNetNB; the trace of events is
    empty, so no file was opened before the failure. *)
Theorem C5_unsupported_source_fails_before_io :
  forall (fs : filesystem) (et base : string),
    ~ recognized et ->
    let e := ValueError ("invalid embedding type " ++ et
               ++ ": Choose either word2vec, GloVe or ConceptNetNB!") in
    read_embeddings fs et base = ([], inl e) /\
    __init__ fs et base = ([], inl e).
Proof.
  intros fs et base Hnot e.
  assert (H : read_embeddings fs et base = ([], inl e)).
  { unfold read_embeddings, recognized in *.
    destruct (String.eqb (casefold et) "word2vec") eqn:E1.
    { apply String.eqb_eq in E1. exfalso. apply Hnot. rewrite E1. simpl. auto. }
    destruct (String.eqb (casefold et) "glove") eqn:E2.
    { apply String.eqb_eq in E2. exfalso. apply Hnot. rewrite E2. simpl. auto. }
    destruct (existsb (String.eqb (casefold et)) ["conceptnetnb"; "conceptnet"]) eqn:E3.
    { apply existsb_exists in E3. destruct E3 as (x & Hx & Heq).
      apply String.eqb_eq in Heq. subst x. exfalso. apply Hnot.
      destruct Hx as [<- | [<- | []]]; simpl; auto. }
    reflexivity. }
  split; [exact H |]. unfold __init__. rewrite H. reflexivity.
Qed.

Lemma C5_unsupported_source_witness :
  read_embeddings Data.glove_fs "fastText" Data.base_dir
  = ([], inl (ValueError
       "invalid embedding type fastText: Choose either word2vec, GloVe or ConceptNetNB!")) /\
  __init__ Data.glove_fs "fastText" Data.base_dir
  = ([], inl (ValueError
       "invalid embedding type fastText: Choose either word2vec, GloVe or ConceptNetNB!")).
Proof.
  apply (C5_unsupported_source_fails_before_io Data.glove_fs "fastText" Data.base_dir).
  unfold recognized. simpl. intros [H | [H | [H | [H | []]]]]; discriminate H.
Defined.

(** ** The store *)

Lemma lookup_combine {A B} (l : list A) (k : list B) (i : nat) :
  combine l k !! i
  = match l !! i, k !! i with
    | Some a, Some b => Some (a, b)
    | _, _ => None
    end.
Proof.
  revert k i. induction l as [| a l IH]; intros k i.
  - reflexivity.
  - destruct k as [| b k].
    + simpl. destruct i; simpl; [reflexivity |]. destruct (l !! i); reflexivity.
    + destruct i; simpl; [reflexivity | apply IH].
Qed.

(** Inserting pairs none of which has key [k] leaves the entry of [k]. *)
Lemma fold_insert_other {V} (pairs : list (string * V)) (m : gmap string V) k :
  (forall j v', pairs !! j <> Some (k, v')) ->
  fold_left (fun m kv => <[fst kv := snd kv]> m) pairs m !! k = m !! k.
Proof.
  revert m. induction pairs as [| [k' v'] pairs IH]; intros m Hno.
  - reflexivity.
  - cbn [fold_left fst snd]. rewrite IH.
    + apply lookup_insert_ne. intros ->. exact (Hno 0%nat v' eq_refl).
    + intros j w. exact (Hno (S j) w).
Qed.

(** After inserting the pairs in order, a key holds the value of its last
    pair. *)
Lemma fold_insert_last {V} (pairs : list (string * V)) (m : gmap string V) i k v :
  pairs !! i = Some (k, v) ->
  (forall j v', (i < j)%nat -> pairs !! j <> Some (k, v')) ->
  fold_left (fun m kv => <[fst kv := snd kv]> m) pairs m !! k = Some v.
Proof.
  revert m i. induction pairs as [| [k' v'] pairs IH]; intros m i Hi Hlast.
  - destruct i; discriminate Hi.
  - destruct i as [| i]; cbn [fold_left fst snd].
    + injection Hi as -> ->. rewrite fold_insert_other.
      * apply lookup_insert_eq.
      * intros j w. apply (Hlast (S j) w). lia.
    + apply (IH _ i); [exact Hi |].
      intros j w Hj. apply (Hlast (S j) w). lia.
Qed.

Lemma py_dict_last {V} (pairs : list (string * V)) i k v :
  pairs !! i = Some (k, v) ->
  (forall j v', (i < j)%nat -> pairs !! j <> Some (k, v')) ->
  py_dict pairs !! k = Some v.
Proof. apply fold_insert_last. Qed.

(** A key of [py_dict] is the key of one of the pairs. *)
Lemma py_dict_lookup_None {V} (pairs : list (string * V)) k :
  (forall j v', pairs !! j <> Some (k, v')) -> py_dict pairs !! k = None.
Proof.
  intros H. unfold py_dict. rewrite fold_insert_other by exact H.
  apply lookup_empty.
Qed.

(** C6.  [make_embedding_map] maps a label to the vector at the label's
    last position in the label list (among the positions that have a
    vector): where a label occurs more than once, the last-seen vector
    wins.  The keys of the resulting mapping are pairwise distinct. *)
Theorem C6_make_embedding_map_last_write_wins :
  forall (word_vectors : list ndarray) (vector_labels : list string)
         (i : nat) (l : string) (v : ndarray),
    vector_labels !! i = Some l ->
    word_vectors !! i = Some v ->
    (forall j, (i < j)%nat -> (j < length word_vectors)%nat ->
               vector_labels !! j <> Some l) ->
    make_embedding_map word_vectors vector_labels !! l = Some v /\
    NoDup (map fst (map_to_list (make_embedding_map word_vectors vector_labels))).
Proof.
  intros wv vl i l v Hl Hv Hlast. split.
  - unfold make_embedding_map. apply (py_dict_last _ i).
    + rewrite lookup_combine, Hl, Hv. reflexivity.
    + intros j v' Hj. rewrite lookup_combine.
      destruct (vl !! j) as [l' |] eqn:El; [| discriminate].
      destruct (wv !! j) as [w |] eqn:Ew; [| discriminate].
      intros [= -> ->]. apply (Hlast j Hj); [| exact El].
      apply lookup_lt_Some in Ew. exact Ew.
  - apply NoDup_fst_map_to_list.
Qed.

Lemma C6_make_embedding_map_witness :
  make_embedding_map [Data.v10; Data.v34; Data.v00; Data.v34]
                     ["haus"; "Baum"; "nul"; "haus"] !! "haus" = Some Data.v34 /\
  NoDup (map fst (map_to_list
    (make_embedding_map [Data.v10; Data.v34; Data.v00; Data.v34]
                        ["haus"; "Baum"; "nul"; "haus"]))).
Proof.
  apply (C6_make_embedding_map_last_write_wins
           [Data.v10; Data.v34; Data.v00; Data.v34]
           ["haus"; "Baum"; "nul"; "haus"] 3 "haus" Data.v34).
  - reflexivity.
  - reflexivity.
  - simpl. intros j H1 H2. lia.
Defined.

(** The first vector of a repeated label is the one that is lost. *)
Example make_embedding_map_duplicate :
  dict Data.glove_store !! "haus" = Some Data.v34 /\
  dict Data.glove_store !! "haus" <> Some Data.v10 /\
  size (dict Data.glove_store) = 3%nat.
Proof. vm_compute. repeat split. discriminate. Qed.

(** C9.  [__len__] returns the number of entries of the instance's
    attribute dictionary, which is 4 ([embedding_type], [word_vectors],
    [vector_labels], [dict]) for every store, however many words its table
    holds. *)
Theorem C9_len_counts_attributes :
  forall self : WordEmbeddings, __len__ self = 4%nat.
Proof.
  intros self. unfold __len__, __dict__.
  rewrite map_size_insert_None
    by (rewrite !lookup_insert_ne by done; apply lookup_empty).
  rewrite map_size_insert_None
    by (rewrite !lookup_insert_ne by done; apply lookup_empty).
  rewrite map_size_insert_None
    by (rewrite !lookup_insert_ne by done; apply lookup_empty).
  rewrite map_size_insert_None by apply lookup_empty.
  rewrite map_size_empty. reflexivity.
Qed.

Example len_is_not_the_word_count :
  __len__ Data.glove_store = 4%nat /\
  size (dict Data.glove_store) = 3%nat /\
  length (vector_labels Data.glove_store) = 4%nat /\
  __len__ Data.word2vec_store = 4%nat /\
  size (dict Data.word2vec_store) = 2%nat.
Proof. vm_compute. repeat split. Qed.

(** C4 (the claim as stated fails).  The key [Haus] is absent from the
    mapping of the GloVe store built from a file that has the label [haus],
    yet the lookup of [Haus] returns a vector: the lookup lowercases the key
    before consulting the mapping. *)
Lemma C4_lookup_absent_key_counterexample :
  __init__ Data.glove_fs "GloVe" Data.base_dir
  = ([Open "./word_vectors/ger_glove_vectors.txt"], inr Data.glove_store) /\
  dict Data.glove_store !! "Haus" = None /\
  __getitem__ Data.glove_store "Haus" = Some Data.v34 /\
  __getitem__ Data.glove_store "Haus" <> None.
Proof. vm_compute. repeat split. discriminate. Qed.

(** *** The lookup on keys of any text *)

Lemma getitem_lower self key : __getitem__ self key = getitem lower self key.
Proof. reflexivity. Qed.

Lemma lowers_ascii_lower : lowers_ascii lower.
Proof. intros s _. reflexivity. Qed.

Lemma ascii_lower_ascii_inv (c : ascii) :
  (nat_of_ascii (ascii_lower c) <? 128)%nat = true ->
  (nat_of_ascii c <? 128)%nat = true.
Proof. destruct c as [[] [] [] [] [] [] [] []]; intros H; exact H. Qed.

Lemma is_ascii_lower_inv (s : string) :
  is_ascii (lower s) = true -> is_ascii s = true.
Proof.
  induction s as [| c s IH]; [reflexivity |].
  cbn [lower is_ascii]. intros H. apply andb_prop in H as [Hc Hs].
  rewrite (ascii_lower_ascii_inv c Hc), (IH Hs). reflexivity.
Qed.

(** A recognized source identifier is ASCII text. *)
Lemma recognized_is_ascii et : recognized et -> is_ascii et = true.
Proof.
  unfold recognized, casefold. intros H. apply is_ascii_lower_inv.
  destruct H as [<- | [<- | [<- | [<- | []]]]]; reflexivity.
Qed.

Lemma lower_latin_from_ascii (s : string) (after_195 : bool) :
  is_ascii s = true -> lower_latin_from after_195 s = lower s.
Proof.
  revert after_195. induction s as [| c s IH]; intros after_195 H;
    [reflexivity |].
  cbn [is_ascii] in H. apply andb_prop in H as [Hc Hs].
  cbn [lower_latin_from lower].
  assert (Hge : (128 <=? nat_of_ascii c)%nat = false).
  { apply Nat.ltb_lt in Hc. apply Nat.leb_gt. exact Hc. }
  cbv zeta. rewrite Hge, andb_false_r. cbn [andb].
  rewrite (IH _ Hs). reflexivity.
Qed.

Lemma lowers_ascii_lower_latin : lowers_ascii lower_latin.
Proof. intros s Hs. apply lower_latin_from_ascii. exact Hs. Qed.

(** In a constructed store, lookup lowercases its key, whatever the text
    of the key. *)
Lemma getitem_constructed_with str_lower fs et base tr self key :
  lowers_ascii str_lower ->
  __init__ fs et base = (tr, inr self) ->
  getitem str_lower self key = dict self !! str_lower key.
Proof.
  intros Hlow H. apply init_returns_recognized in H. destruct H as [Hrec Het].
  unfold getitem. rewrite Het.
  rewrite (Hlow et (recognized_is_ascii et Hrec)).
  unfold recognized, casefold in Hrec.
  replace (existsb (String.eqb (lower et))
                   ["word2vec"; "glove"; "conceptnet"; "conceptnetnb"]) with true;
    [reflexivity |].
  symmetry. apply existsb_exists. exists (lower et). split; [exact Hrec |].
  apply String.eqb_refl.
Qed.

Example init_umlaut :
  __init__ Data3.umlaut_fs "GloVe" Data.base_dir
  = ([Open "./word_vectors/ger_glove_vectors.txt"], inr Data3.umlaut_store).
Proof. reflexivity. Qed.

(** With a case function that lowers the umlauts, [TÜR] finds the vector
    stored under [tür], and the stored [Über] is found by no spelling. *)
Example getitem_umlauts :
  lower_latin "TÜR" = "tür" /\
  getitem lower_latin Data3.umlaut_store "TÜR" = Some Data.v34 /\
  dict Data3.umlaut_store !! "Über" = Some Data.v10 /\
  getitem lower_latin Data3.umlaut_store "Über" = None /\
  getitem lower_latin Data3.umlaut_store "über" = None.
Proof. vm_compute. repeat split. Qed.

(** C4 (amended).  In every constructed store, a key whose lowercased form
    is absent from the mapping is looked up as [None]; the lookup is a
    total function into [option], so nothing is raised.  The lowercased
    form is that of [str.lower], for keys of any text. *)
Theorem C4_lookup_absent_lowercased_key :
  forall (str_lower : string -> string) fs et base tr
         (self : WordEmbeddings) (w : string),
    lowers_ascii str_lower ->
    __init__ fs et base = (tr, inr self) ->
    dict self !! str_lower w = None ->
    getitem str_lower self w = None.
Proof.
  intros str_lower fs et base tr self w Hlow Hinit Habs.
  rewrite (getitem_constructed_with _ _ _ _ _ _ w Hlow Hinit). exact Habs.
Qed.

Lemma C4_lookup_absent_lowercased_key_witness :
  getitem lower_latin Data3.umlaut_store "Über" = None /\
  getitem lower Data.glove_store "Tiger" = None.
Proof.
  split.
  - apply (C4_lookup_absent_lowercased_key lower_latin Data3.umlaut_fs "GloVe"
             Data.base_dir [Open "./word_vectors/ger_glove_vectors.txt"]
             Data3.umlaut_store "Über").
    + exact lowers_ascii_lower_latin.
    + reflexivity.
    + vm_compute. reflexivity.
  - apply (C4_lookup_absent_lowercased_key lower Data.glove_fs "GloVe"
             Data.base_dir [Open "./word_vectors/ger_glove_vectors.txt"]
             Data.glove_store "Tiger").
    + exact lowers_ascii_lower.
    + reflexivity.
    + vm_compute. reflexivity.
Defined.

(** C10.  In every constructed store, a stored label whose lowercased form
    is not a key of the mapping cannot be reached by lookup: the lookup of
    the label itself returns [None], because the key is lowercased on
    lookup while the labels are stored as the loader produced them.  The
    lowercased form is that of [str.lower], for labels of any text. *)
Theorem C10_capitalised_label_unreachable :
  forall (str_lower : string -> string) fs et base tr
         (self : WordEmbeddings) (l : string) (v : ndarray),
    lowers_ascii str_lower ->
    __init__ fs et base = (tr, inr self) ->
    dict self !! l = Some v ->
    dict self !! str_lower l = None ->
    getitem str_lower self l = None.
Proof.
  intros str_lower fs et base tr self l v Hlow Hinit _ Habs.
  rewrite (getitem_constructed_with _ _ _ _ _ _ l Hlow Hinit). exact Habs.
Qed.

Lemma C10_capitalised_label_unreachable_witness :
  (dict Data3.umlaut_store !! "Über" = Some Data.v10 /\
   getitem lower_latin Data3.umlaut_store "Über" = None) /\
  (dict Data.glove_store !! "Baum" = Some Data.v34 /\
   getitem lower Data.glove_store "Baum" = None).
Proof.
  split; (split; [vm_compute; reflexivity |]).
  - apply (C10_capitalised_label_unreachable lower_latin Data3.umlaut_fs "GloVe"
             Data.base_dir [Open "./word_vectors/ger_glove_vectors.txt"]
             Data3.umlaut_store "Über" Data.v10).
    + exact lowers_ascii_lower_latin.
    + reflexivity.
    + vm_compute. reflexivity.
    + vm_compute. reflexivity.
  - apply (C10_capitalised_label_unreachable lower Data.glove_fs "GloVe"
             Data.base_dir [Open "./word_vectors/ger_glove_vectors.txt"]
             Data.glove_store "Baum" Data.v34).
    + exact lowers_ascii_lower.
    + reflexivity.
    + vm_compute. reflexivity.
    + vm_compute. reflexivity.
Defined.

(** C3.  When the lookup of [w1] or of [w2] is missing,
    [get_cosine_similarity] returns [None] and raises nothing; its only
    effect is one printed line naming the missing word ([w1] when its
    lookup is missing, [w2] otherwise). *)
Theorem C3_missing_word_yields_none :
  forall (self : WordEmbeddings) (w1 w2 : string),
    __getitem__ self w1 = None \/ __getitem__ self w2 = None ->
    exists w,
      (w = w1 \/ w = w2) /\
      __getitem__ self w = None /\
      get_cosine_similarity self w1 w2
      = ([Printed ("no vectors for word " ++ w)], inr None).
Proof.
  intros self w1 w2 H. unfold get_cosine_similarity.
  destruct (__getitem__ self w1) as [v1 |] eqn:E1.
  - destruct H as [H | H]; [discriminate H |].
    exists w2. rewrite H. auto.
  - exists w1. auto.
Qed.

Lemma C3_missing_word_witness :
  exists w,
    (w = "haus" \/ w = "Tiger") /\
    __getitem__ Data.glove_store w = None /\
    get_cosine_similarity Data.glove_store "haus" "Tiger"
    = ([Printed ("no vectors for word " ++ w)], inr None).
Proof.
  apply (C3_missing_word_yields_none Data.glove_store "haus" "Tiger").
  right. vm_compute. reflexivity.
Defined.

(** ** Cosine similarity *)

Lemma F32_mul_comm (x y : F32.t) : F32.mul x y = F32.mul y x.
Proof.
  unfold F32.mul.
  destruct x as [sx | sx | | sx mx ex], y as [sy | sy | | sy my ey];
    cbn [SFmul]; rewrite ?(xorb_comm sx sy); try reflexivity.
  rewrite (Pos.mul_comm mx my), (Z.add_comm ex ey). reflexivity.
Qed.

Lemma dot_fold_comm (x y : ndarray) (acc : F32.t) :
  fold_left (fun acc ab => F32.add acc (F32.mul (fst ab) (snd ab)))
            (combine x y) acc
  = fold_left (fun acc ab => F32.add acc (F32.mul (fst ab) (snd ab)))
              (combine y x) acc.
Proof.
  revert y acc. induction x as [| a x IH]; intros [| b y] acc; try reflexivity.
  cbn [combine fold_left fst snd]. rewrite (F32_mul_comm a b). apply IH.
Qed.

(** The product of two rows does not depend on their order. *)
Lemma dot_comm (x y : ndarray) : Sklearn.dot x y = Sklearn.dot y x.
Proof. apply dot_fold_comm. Qed.

Lemma check_array_cases (x : ndarray) :
  (forallb F32.is_finite x && negb (length x =? 0)%nat = true /\
   Sklearn.check_array x = ([], inr tt)) \/
  (forallb F32.is_finite x && negb (length x =? 0)%nat = false /\
   exists e, Sklearn.check_array x = ([], inl e)).
Proof.
  unfold Sklearn.check_array.
  destruct (forallb F32.is_finite x); cbn [negb andb]; [| right; eauto].
  destruct (length x =? 0)%nat; cbn [negb]; [right; eauto | left; auto].
Qed.

(** [cosine_similarity] performs no event; it returns the product of the
    normalised rows on a valid pair and raises on any other. *)
Lemma cosine_similarity_cases (x y : ndarray) :
  (valid_pair x y = true /\
   Sklearn.cosine_similarity x y
   = ([], inr (Sklearn.dot (Sklearn.normalize x) (Sklearn.normalize y)))) \/
  (valid_pair x y = false /\
   exists e, Sklearn.cosine_similarity x y = ([], inl e)).
Proof.
  unfold valid_pair, Sklearn.cosine_similarity, Sklearn.check_pairwise_arrays.
  destruct (check_array_cases x) as [[-> ->] | [-> [e ->]]];
    [| right; split; [reflexivity | exists e; reflexivity]].
  destruct (check_array_cases y) as [[Hy ->] | [Hy [e ->]]].
  - rewrite andb_true_l, Hy, andb_true_l.
    destruct (length x =? length y)%nat; [left | right]; split;
      try reflexivity; eexists; reflexivity.
  - right. rewrite andb_true_l, Hy. split; [reflexivity |].
    exists e. reflexivity.
Qed.

Lemma valid_pair_sym (x y : ndarray) : valid_pair x y = valid_pair y x.
Proof.
  unfold valid_pair. rewrite (Nat.eqb_sym (length x) (length y)).
  destruct (forallb F32.is_finite x), (forallb F32.is_finite y),
    (length x =? 0)%nat, (length y =? 0)%nat, (length y =? length x)%nat;
    reflexivity.
Qed.

(** What [cosine_similarity] returns is the same for both orders of its
    arguments. *)
Lemma cosine_similarity_returned_sym (x y : ndarray) :
  returned (Sklearn.cosine_similarity x y)
  = returned (Sklearn.cosine_similarity y x).
Proof.
  destruct (cosine_similarity_cases x y) as [[Hv ->] | [Hv [e ->]]];
    rewrite valid_pair_sym in Hv;
    destruct (cosine_similarity_cases y x) as [[Hv' ->] | [Hv' [e' ->]]];
    try congruence.
  - cbn [returned]. rewrite dot_comm. reflexivity.
  - reflexivity.
Qed.

(** [get_cosine_similarity] on two words that have vectors. *)
Lemma get_cosine_similarity_found self w1 w2 v1 v2 :
  __getitem__ self w1 = Some v1 ->
  __getitem__ self w2 = Some v2 ->
  get_cosine_similarity self w1 w2
  = (k <- Sklearn.cosine_similarity v1 v2 ;; ret (Some k)).
Proof. intros H1 H2. unfold get_cosine_similarity. rewrite H1, H2. reflexivity. Qed.

Lemma get_cosine_similarity_valid self w1 w2 v1 v2 :
  __getitem__ self w1 = Some v1 ->
  __getitem__ self w2 = Some v2 ->
  valid_pair v1 v2 = true ->
  get_cosine_similarity self w1 w2
  = ([], inr (Some (Sklearn.dot (Sklearn.normalize v1) (Sklearn.normalize v2)))).
Proof.
  intros H1 H2 Hv. rewrite (get_cosine_similarity_found _ _ _ _ _ H1 H2).
  destruct (cosine_similarity_cases v1 v2) as [[_ ->] | [Hv' _]]; [reflexivity |].
  congruence.
Qed.

(** With both words found, the call never returns the missing marker. *)
Lemma get_cosine_similarity_found_not_none self w1 w2 v1 v2 tr :
  __getitem__ self w1 = Some v1 ->
  __getitem__ self w2 = Some v2 ->
  get_cosine_similarity self w1 w2 <> (tr, inr None).
Proof.
  intros H1 H2. rewrite (get_cosine_similarity_found _ _ _ _ _ H1 H2).
  destruct (cosine_similarity_cases v1 v2) as [[_ ->] | [_ [e ->]]];
    cbn; discriminate.
Qed.

(** The value handed to the caller is the same for both orders of the two
    words, whether or not they have vectors. *)
Lemma similarity_value_sym self w1 w2 :
  similarity_value self w1 w2 = similarity_value self w2 w1.
Proof.
  unfold similarity_value, get_cosine_similarity.
  destruct (__getitem__ self w1) as [v1 |], (__getitem__ self w2) as [v2 |];
    try reflexivity.
  pose proof (cosine_similarity_returned_sym v1 v2) as Hsym.
  destruct (Sklearn.cosine_similarity v1 v2) as [t1 [e1 | k1]],
           (Sklearn.cosine_similarity v2 v1) as [t2 [e2 | k2]];
    cbn in *; congruence.
Qed.

Example cosine_similarity_examples :
  Sklearn.cosine_similarity Data.v34 Data.v34 = ([], inr F32.one) /\
  Sklearn.cosine_similarity Data.v10 Data.v34
  = Sklearn.cosine_similarity Data.v34 Data.v10 /\
  Sklearn.cosine_similarity Data.v00 Data.v34 = ([], inr F32.zero) /\
  returned (Sklearn.cosine_similarity Data.v34 [F32.one]) = None.
Proof. vm_compute. repeat split. Qed.

(** C7.  For two words that both have vectors, [get_cosine_similarity]
    returns the same in both orders; on a valid pair of vectors (finite
    entries, equal non-zero lengths) both calls return the same number and
    print nothing. *)
Theorem C7_cosine_similarity_symmetric :
  forall (self : WordEmbeddings) (w1 w2 : string) (v1 v2 : ndarray),
    __getitem__ self w1 = Some v1 ->
    __getitem__ self w2 = Some v2 ->
    returned (get_cosine_similarity self w1 w2)
    = returned (get_cosine_similarity self w2 w1) /\
    (valid_pair v1 v2 = true ->
     exists k : F32.t,
       get_cosine_similarity self w1 w2 = ([], inr (Some k)) /\
       get_cosine_similarity self w2 w1 = ([], inr (Some k))).
Proof.
  intros self w1 w2 v1 v2 H1 H2. split.
  - rewrite (get_cosine_similarity_found _ _ _ _ _ H1 H2).
    rewrite (get_cosine_similarity_found _ _ _ _ _ H2 H1).
    pose proof (cosine_similarity_returned_sym v1 v2) as Hsym.
    destruct (Sklearn.cosine_similarity v1 v2) as [t1 [e1 | k1]],
             (Sklearn.cosine_similarity v2 v1) as [t2 [e2 | k2]];
      cbn in *; congruence.
  - intros Hv.
    exists (Sklearn.dot (Sklearn.normalize v1) (Sklearn.normalize v2)). split.
    + apply (get_cosine_similarity_valid _ _ _ _ _ H1 H2 Hv).
    + rewrite dot_comm. rewrite valid_pair_sym in Hv.
      apply (get_cosine_similarity_valid _ _ _ _ _ H2 H1 Hv).
Qed.

Lemma C7_cosine_similarity_symmetric_witness :
  returned (get_cosine_similarity Data.word2vec_store "Mond" "Sonne")
  = returned (get_cosine_similarity Data.word2vec_store "Sonne" "Mond") /\
  exists k : F32.t,
    get_cosine_similarity Data.word2vec_store "Mond" "Sonne" = ([], inr (Some k)) /\
    get_cosine_similarity Data.word2vec_store "Sonne" "Mond" = ([], inr (Some k)).
Proof.
  destruct (C7_cosine_similarity_symmetric Data.word2vec_store "Mond" "Sonne"
              Data.v10 Data.v34) as [Hsym Hvalid].
  - vm_compute. reflexivity.
  - vm_compute. reflexivity.
  - split; [exact Hsym |]. apply Hvalid. vm_compute. reflexivity.
Defined.

(** C8 (the claim as stated fails).  The word [nul] is stored with the zero
    vector; its similarity with [haus] is not the missing marker [None] but
    the number 0.0. *)
Lemma C8_zero_vector_counterexample :
  __getitem__ Data.glove_store "nul" = Some Data.v00 /\
  is_zero_vector Data.v00 = true /\
  get_cosine_similarity Data.glove_store "nul" "haus"
  = ([], inr (Some (S754_zero false))) /\
  get_cosine_similarity Data.glove_store "nul" "haus" <> ([], inr None).
Proof. vm_compute. repeat split. discriminate. Qed.

(** The norm of a zero vector is replaced by 1, so normalisation leaves
    the vector as it is and nothing is divided by zero. *)
Lemma zero_vector_sum_squares (v : ndarray) :
  is_zero_vector v = true ->
  fold_left (fun acc xi => F32.add acc (F32.mul xi xi)) v (S754_zero false)
  = S754_zero false.
Proof.
  induction v as [| x v IH]; [reflexivity |].
  cbn [is_zero_vector forallb]. intros H. apply andb_prop in H as [Hx Hv].
  destruct x as [s | | |]; try discriminate Hx.
  cbn [fold_left]. replace (F32.mul (S754_zero s) (S754_zero s)) with (S754_zero false)
    by (destruct s; reflexivity).
  exact (IH Hv).
Qed.

Lemma normalize_zero_vector (v : ndarray) :
  is_zero_vector v = true -> Sklearn.normalize v = v.
Proof.
  intros Hz. unfold Sklearn.normalize, Sklearn.row_norm, F32.zero.
  rewrite (zero_vector_sum_squares v Hz).
  change (Sklearn.handle_zeros_in_scale (F32.sqrt (S754_zero false)))
    with (S754_finite false 8388608 (-23)).
  induction v as [| x v IH]; [reflexivity |].
  cbn [is_zero_vector forallb] in Hz. apply andb_prop in Hz as [Hx Hv].
  destruct x as [s | | |]; try discriminate Hx.
  cbn [map]. f_equal; [destruct s; reflexivity | exact (IH Hv)].
Qed.

(** C8 (amended).  For a word whose stored vector is the zero vector and
    any other word that has a vector, [get_cosine_similarity] never returns
    the missing marker, in either order: there is no guard for zero
    vectors, and the call passes on what [cosine_similarity] does.  There
    the zero norm is replaced by 1, so on a valid pair of vectors the
    result is a number, the product of the zero vector itself with the
    normalised other vector, returned without any printed diagnostic. *)
Theorem C8_zero_vector_yields_number :
  forall (self : WordEmbeddings) (w1 w2 : string) (v1 v2 : ndarray),
    __getitem__ self w1 = Some v1 ->
    __getitem__ self w2 = Some v2 ->
    is_zero_vector v1 = true ->
    (forall tr, get_cosine_similarity self w1 w2 <> (tr, inr None)) /\
    (forall tr, get_cosine_similarity self w2 w1 <> (tr, inr None)) /\
    (valid_pair v1 v2 = true ->
     let k := Sklearn.dot v1 (Sklearn.normalize v2) in
     get_cosine_similarity self w1 w2 = ([], inr (Some k)) /\
     get_cosine_similarity self w2 w1 = ([], inr (Some k))).
Proof.
  intros self w1 w2 v1 v2 H1 H2 Hz. split_and!.
  - intros tr. apply (get_cosine_similarity_found_not_none _ _ _ _ _ _ H1 H2).
  - intros tr. apply (get_cosine_similarity_found_not_none _ _ _ _ _ _ H2 H1).
  - intros Hv k. subst k.
    replace (Sklearn.dot v1 (Sklearn.normalize v2))
      with (Sklearn.dot (Sklearn.normalize v1) (Sklearn.normalize v2))
      by (rewrite (normalize_zero_vector v1 Hz); reflexivity).
    split.
    + apply (get_cosine_similarity_valid _ _ _ _ _ H1 H2 Hv).
    + rewrite dot_comm. rewrite valid_pair_sym in Hv.
      apply (get_cosine_similarity_valid _ _ _ _ _ H2 H1 Hv).
Qed.

Lemma C8_zero_vector_yields_number_witness :
  (forall tr, get_cosine_similarity Data.glove_store "nul" "haus" <> (tr, inr None)) /\
  (forall tr, get_cosine_similarity Data.glove_store "haus" "nul" <> (tr, inr None)) /\
  get_cosine_similarity Data.glove_store "nul" "haus"
  = ([], inr (Some (Sklearn.dot Data.v00 (Sklearn.normalize Data.v34)))) /\
  get_cosine_similarity Data.glove_store "haus" "nul"
  = ([], inr (Some (Sklearn.dot Data.v00 (Sklearn.normalize Data.v34)))).
Proof.
  destruct (C8_zero_vector_yields_number Data.glove_store "nul" "haus"
              Data.v00 Data.v34) as (Hn1 & Hn2 & Hvalid).
  - vm_compute. reflexivity.
  - vm_compute. reflexivity.
  - vm_compute. reflexivity.
  - split; [exact Hn1 |]. split; [exact Hn2 |]. apply Hvalid.
    vm_compute. reflexivity.
Defined.

(** ** The similarity matrix *)

Lemma setitem_in df col row v :
  col ∈ columns df -> row ∈ index df ->
  DataFrame_setitem df col row v
  = ret {| columns := columns df; index := index df;
           cells := <[(col, row) := Obj v]> (cells df) |}.
Proof.
  intros Hc Hr. unfold DataFrame_setitem.
  rewrite !bool_decide_eq_true_2 by assumption. reflexivity.
Qed.

Lemma getitem_in_dict self w v :
  __getitem__ self w = Some v -> exists key, dict self !! key = Some v.
Proof. unfold __getitem__. eauto. Qed.

Section MatrixLoop.

Variable self : WordEmbeddings.
Hypothesis Hok : table_ok self.

(** Under the table invariant any two stored vectors form a valid pair. *)
Lemma table_ok_valid_pair w1 w2 v1 v2 :
  __getitem__ self w1 = Some v1 ->
  __getitem__ self w2 = Some v2 ->
  valid_pair v1 v2 = true.
Proof.
  destruct Hok as (d & Hd & Hall). intros H1 H2.
  apply getitem_in_dict in H1 as [k1 H1]. apply getitem_in_dict in H2 as [k2 H2].
  destruct (Hall _ _ H1) as [L1 F1]. destruct (Hall _ _ H2) as [L2 F2].
  unfold valid_pair. rewrite F1, F2, L1, L2, Nat.eqb_refl.
  destruct d; [congruence | reflexivity].
Qed.

(** Under the table invariant [get_cosine_similarity] always returns. *)
Lemma get_cosine_similarity_returns w1 w2 :
  exists tr,
    get_cosine_similarity self w1 w2 = (tr, inr (similarity_value self w1 w2)).
Proof.
  unfold similarity_value.
  destruct (__getitem__ self w1) as [v1 |] eqn:E1.
  - destruct (__getitem__ self w2) as [v2 |] eqn:E2.
    + rewrite (get_cosine_similarity_valid _ _ _ _ _ E1 E2
                 (table_ok_valid_pair _ _ _ _ E1 E2)).
      eexists. reflexivity.
    + unfold get_cosine_similarity. rewrite E1, E2. eexists. reflexivity.
  - unfold get_cosine_similarity. rewrite E1. eexists. reflexivity.
Qed.

(** The filling loop: it runs to its end, keeps the labels, and leaves in
    every cell it passed the similarity value of that cell's pair. *)
Lemma fill_loop (ps : list (string * string)) :
  forall df,
    (forall p, p ∈ ps -> fst p ∈ columns df /\ snd p ∈ index df) ->
    exists tr df',
      for_each
        (fun df w12 =>
           let '(w1, w2) := w12 in
           s <- get_cosine_similarity self w1 w2 ;;
           DataFrame_setitem df w1 w2 s)
        ps df = (tr, inr df') /\
      columns df' = columns df /\
      index df' = index df /\
      forall k, cells df' !! k
                = if bool_decide (k ∈ ps)
                  then Some (Obj (similarity_value self (fst k) (snd k)))
                  else cells df !! k.
Proof.
  induction ps as [| [w1 w2] ps IH]; intros df Hin.
  - exists [], df. split_and!; reflexivity.
  - destruct (Hin (w1, w2)) as [Hc Hr]; [left |]. cbn [fst snd] in Hc, Hr.
    destruct (get_cosine_similarity_returns w1 w2) as [tr1 Hs].
    set (df1 := {| columns := columns df; index := index df;
                   cells := <[(w1, w2) := Obj (similarity_value self w1 w2)]>
                              (cells df) |}).
    destruct (IH df1) as (tr2 & df' & Hloop & Hcols & Hidx & Hcells).
    { intros p Hp. apply Hin. right. exact Hp. }
    exists (tr1 ++ tr2), df'. split_and!; [| exact Hcols | exact Hidx |].
    + cbn [for_each]. apply (bind_returns _ _ tr1 df1 tr2 df'); [| exact Hloop].
      rewrite <- (app_nil_r tr1).
      apply (bind_returns _ _ tr1 (similarity_value self w1 w2) [] df1);
        [exact Hs |].
      apply (setitem_in df w1 w2 _ Hc Hr).
    + intros k. rewrite Hcells.
      destruct (decide (k ∈ ps)) as [Hk | Hk].
      * rewrite !bool_decide_eq_true_2; [reflexivity | right; exact Hk | exact Hk].
      * rewrite (bool_decide_eq_false_2 _ Hk). cbn [cells df1].
        destruct (decide (k = (w1, w2))) as [-> | Hne].
        -- rewrite lookup_insert_eq, bool_decide_eq_true_2 by left.
           reflexivity.
        -- rewrite lookup_insert_ne by congruence.
           rewrite bool_decide_eq_false_2; [reflexivity |].
           intros [? | ?]%elem_of_cons; contradiction.
Qed.

End MatrixLoop.

Lemma elem_of_product2 {A} (l : list A) (a b : A) :
  (a, b) ∈ product2 l <-> a ∈ l /\ b ∈ l.
Proof. unfold product2. rewrite !list_elem_of_In. apply in_prod_iff. Qed.

Lemma NoDup_list_prod {A B} (l : list A) (l' : list B) :
  NoDup l -> NoDup l' -> NoDup (list_prod l l').
Proof.
  intros Hl Hl'. induction l as [| x l IH]; cbn [list_prod]; [constructor |].
  apply NoDup_cons in Hl as [Hx Hl].
  apply NoDup_app. split_and!.
  - apply (NoDup_fmap_2 (pair x)). exact Hl'.
  - intros p Hp Hq. apply list_elem_of_fmap in Hp as (y & -> & _).
    apply list_elem_of_In, in_prod_iff in Hq as [Hq _].
    apply Hx, list_elem_of_In, Hq.
  - apply IH; assumption.
Qed.

(** The frame before the loop: one [NaN] cell per pair of labels. *)
Lemma DataFrame_new_cells (cols idx : list string) k :
  cells (DataFrame_new cols idx) !! k
  = if bool_decide (k ∈ list_prod cols idx) then Some NaN else None.
Proof.
  cbn [cells DataFrame_new].
  change (map (fun k0 : string * string => (k0, NaN)) (list_prod cols idx))
    with ((fun k0 : string * string => (k0, NaN)) <$> list_prod cols idx).
  case_bool_decide as Hk.
  - apply elem_of_list_to_map_1'.
    + intros y Hy. apply list_elem_of_fmap in Hy as (k' & [= -> ->] & _).
      reflexivity.
    + apply list_elem_of_fmap. exists k. split; [reflexivity | exact Hk].
  - apply not_elem_of_list_to_map_1. intros Hin. apply Hk.
    apply list_elem_of_fmap in Hin as ([k' c] & -> & Hin).
    apply list_elem_of_fmap in Hin as (k'' & [= -> ->] & Hin). exact Hin.
Qed.

Lemma DataFrame_new_size (cols idx : list string) :
  NoDup cols -> NoDup idx ->
  size (cells (DataFrame_new cols idx)) = (length cols * length idx)%nat.
Proof.
  intros Hc Hi. cbn [cells DataFrame_new].
  change (map (fun k0 : string * string => (k0, NaN)) (list_prod cols idx))
    with ((fun k0 : string * string => (k0, NaN)) <$> list_prod cols idx).
  rewrite map_size_list_to_map.
  - rewrite length_fmap. apply length_prod.
  - replace (((fun k0 : string * string => (k0, NaN)) <$> list_prod cols idx).*1)
      with (list_prod cols idx).
    + apply NoDup_list_prod; assumption.
    + induction (list_prod cols idx) as [| p l IH]; [reflexivity |].
      cbn. rewrite <- IH. reflexivity.
Qed.

(** C2 (amended).  For a list of [N] pairwise distinct words and a store that
    satisfies the table invariant, the loop of the last cell runs to its
    end and leaves a frame whose columns and whose index are the word list
    itself, in its order, with exactly the [N * N] cells of all ordered
    pairs of words (self-pairs included); the cell at row [r] and column
    [c] holds what [get_cosine_similarity] returns for [(r, c)]. *)
Theorem C2_similarity_matrix_cells :
  forall (self : WordEmbeddings) (list_words : list string),
    NoDup list_words ->
    table_ok self ->
    exists tr df,
      similarity_matrix self list_words = (tr, inr df) /\
      columns df = list_words /\
      index df = list_words /\
      size (cells df) = (length list_words * length list_words)%nat /\
      (forall c r, is_Some (cells df !! (c, r))
                   <-> c ∈ list_words /\ r ∈ list_words) /\
      (forall r c, r ∈ list_words -> c ∈ list_words ->
         exists tr' s,
           get_cosine_similarity self r c = (tr', inr s) /\
           cells df !! (c, r) = Some (Obj s)).
Proof.
  intros self words Hnd Hok. unfold similarity_matrix.
  destruct (fill_loop self Hok (product2 words) (DataFrame_new words words))
    as (tr & df & Hloop & Hcols & Hidx & Hcells).
  { intros [a b] Hp. apply elem_of_product2 in Hp. exact Hp. }
  assert (Hsome : forall c r, is_Some (cells df !! (c, r))
                              <-> c ∈ words /\ r ∈ words).
  { intros c r. rewrite Hcells. case_bool_decide as Hk.
    - apply elem_of_product2 in Hk. split; [intros _; exact Hk | eauto].
    - rewrite DataFrame_new_cells. fold (product2 words).
      rewrite (bool_decide_eq_false_2 _ Hk).
      rewrite elem_of_product2 in Hk.
      split; [intros [x Hx]; discriminate Hx | intros H; contradiction]. }
  exists tr, df. split_and!; try assumption.
  - rewrite <- (DataFrame_new_size words words Hnd Hnd).
    rewrite <- (size_dom (D := gset (string * string)) (cells df)).
    rewrite <- (size_dom (D := gset (string * string))
                  (cells (DataFrame_new words words))).
    f_equal. apply set_eq. intros [c r]. rewrite !elem_of_dom, Hsome.
    rewrite DataFrame_new_cells. fold (product2 words).
    case_bool_decide as Hk; rewrite elem_of_product2 in Hk.
    + split; [eauto | intros _; exact Hk].
    + split; [intros H; contradiction | intros [x Hx]; discriminate Hx].
  - intros r c Hr Hc.
    destruct (get_cosine_similarity_returns self Hok r c) as [tr' Hs].
    exists tr', (similarity_value self r c). split; [exact Hs |].
    rewrite Hcells, bool_decide_eq_true_2 by (apply elem_of_product2; auto).
    cbn [fst snd]. rewrite (similarity_value_sym self c r). reflexivity.
Qed.

Lemma word2vec_store_table_ok : table_ok Data.word2vec_store.
Proof.
  exists 2%nat. split; [discriminate |].
  change (dict Data.word2vec_store)
    with (<["sonne" := Data.v34]> (<["mond" := Data.v10]> (∅ : gmap string ndarray))).
  intros w v Hw.
  apply lookup_insert_Some in Hw as [[_ <-] | [_ Hw]]; [split; reflexivity |].
  apply lookup_insert_Some in Hw as [[_ <-] | [_ Hw]]; [split; reflexivity |].
  rewrite lookup_empty in Hw. discriminate Hw.
Qed.

Lemma C2_similarity_matrix_witness :
  exists tr df,
    similarity_matrix Data.word2vec_store ["Mond"; "Sonne"; "See"] = (tr, inr df) /\
    columns df = ["Mond"; "Sonne"; "See"] /\
    index df = ["Mond"; "Sonne"; "See"] /\
    size (cells df) = (length ["Mond"; "Sonne"; "See"] * length ["Mond"; "Sonne"; "See"])%nat /\
    (forall c r, is_Some (cells df !! (c, r))
                 <-> c ∈ ["Mond"; "Sonne"; "See"] /\ r ∈ ["Mond"; "Sonne"; "See"]) /\
    (forall r c, r ∈ ["Mond"; "Sonne"; "See"] -> c ∈ ["Mond"; "Sonne"; "See"] ->
       exists tr' s,
         get_cosine_similarity Data.word2vec_store r c = (tr', inr s) /\
         cells df !! (c, r) = Some (Obj s)).
Proof.
  apply (C2_similarity_matrix_cells Data.word2vec_store ["Mond"; "Sonne"; "See"]).
  - apply NoDup_ListNoDup.
    repeat (constructor; [simpl; intuition discriminate |]). constructor.
  - exact word2vec_store_table_ok.
Defined.

(** C2 (the claim as stated fails).  The word2vec store built from a file
    whose first row has a vector of one entry and whose other rows have
    vectors of two entries finds both [Mond] and [2]; for the list of these
    two distinct words the loop raises at the pair [(Mond, 2)], whose
    vectors have different lengths, and no matrix is produced. *)
Lemma C2_every_store_counterexample :
  __init__ Data3.mixed_fs "word2vec" Data.base_dir
  = ([Open "./word_vectors/ger_word2vec_vectors.txt"], inr Data2.mixed_store) /\
  __getitem__ Data2.mixed_store "Mond" = Some Data.v10 /\
  __getitem__ Data2.mixed_store "2" = Some [F32.of_Z 3] /\
  (exists tr msg,
     similarity_matrix Data2.mixed_store ["Mond"; "2"] = (tr, inl (ValueError msg))) /\
  returned (similarity_matrix Data2.mixed_store ["Mond"; "2"]) = None.
Proof.
  split_and!; try (vm_compute; reflexivity).
  eexists _, _. vm_compute. reflexivity.
Qed.

(** The end-to-end scenario of the specification: all three words stored,
    and the same with [See] missing. *)
Example similarity_matrix_scenario :
  let words := ["Mond"; "Sonne"; "See"] in
  match similarity_matrix Data.word2vec_store words with
  | (tr, inr df) =>
      cells df !! ("Mond", "Mond") = Some (Obj (Some F32.one)) /\
      cells df !! ("Sonne", "Sonne") = Some (Obj (Some F32.one)) /\
      cells df !! ("Mond", "Sonne") = cells df !! ("Sonne", "Mond") /\
      cells df !! ("See", "Mond") = Some (Obj None) /\
      cells df !! ("Mond", "See") = Some (Obj None) /\
      cells df !! ("See", "See") = Some (Obj None) /\
      size (cells df) = 9%nat /\
      length tr = 5%nat
  | _ => False
  end.
Proof. vm_compute. repeat split. Qed.

(* ===================================================================== *)
(** * Further properties of the loaders *)
(* ===================================================================== *)

Lemma substring_zero_length (n : nat) (s : string) : substring n 0 s = "".
Proof.
  revert s. induction n as [| n IH]; intros [| c s]; cbn [substring];
    try reflexivity. apply IH.
Qed.

Lemma substring_app_prefix (w t : string) :
  substring 0 (String.length w) (w ++ t) = w.
Proof.
  induction w as [| c w IH]; simpl.
  - destruct t; reflexivity.
  - rewrite IH. reflexivity.
Qed.

Lemma length_append (s t : string) :
  String.length (s ++ t) = (String.length s + String.length t)%nat.
Proof. induction s as [| c s IH]; simpl; [reflexivity | f_equal; exact IH]. Qed.

(** The word2vec slice undoes the wrapping [b'...']. *)
Lemma slice_wrapped (w : string) : slice ("b'" ++ w ++ "'") 2 1 = w.
Proof.
  change ("b'" ++ w ++ "'")%string with (String "b" (String "'" (w ++ "'")%string)).
  unfold slice. cbn [String.length]. rewrite length_append. cbn [String.length].
  replace (S (S (String.length w + 1)) - 1 - 2)%nat with (String.length w) by lia.
  cbn [substring]. apply substring_app_prefix.
Qed.

(** The word2vec slice of a label of at most three characters is empty. *)
Lemma slice_short (w : string) :
  (String.length w <= 3)%nat -> slice w 2 1 = "".
Proof.
  intros H. unfold slice.
  replace (String.length w - 1 - 2)%nat with 0%nat by lia.
  apply substring_zero_length.
Qed.

(** X1.  The ConceptNet branch, given its file, opens that one file and
    returns two lists of equal length; the vectors returned are exactly
    the vectors of the rows whose raw label starts with [/c/de/], and a
    file without such a row gives two empty lists. *)
Theorem X1_conceptnet_keeps_prefixed_rows :
  forall (fs : filesystem) (et base : string) (rows : list (string * ndarray)),
    In (casefold et) ["conceptnetnb"; "conceptnet"] ->
    fs (join base "conceptnet_vectors.txt") = Some rows ->
    exists wv vl,
      read_embeddings fs et base
      = ([Open (join base "conceptnet_vectors.txt")], inr (wv, vl)) /\
      length wv = length vl /\
      (forall v, In v wv <->
                 exists word, In (word, v) rows /\ startswith word prefix = true) /\
      ((forall word v, In (word, v) rows -> startswith word prefix = false) ->
       wv = [] /\ vl = []).
Proof.
  intros fs et base rows Het Hfs.
  rewrite (read_embeddings_conceptnet _ _ _ _ Het Hfs).
  eexists _, _. split; [reflexivity |]. split_and!.
  - rewrite !length_map. reflexivity.
  - intros v. rewrite in_map_iff. split.
    + intros ([word v'] & <- & Hin). apply filter_In in Hin as [Hin Hp].
      exists word. auto.
    + intros (word & Hin & Hp). exists (word, v). split; [reflexivity |].
      apply filter_In. auto.
  - intros Hnone.
    assert (Hf : List.filter (fun r : string * ndarray => startswith (fst r) prefix) rows = []).
    { clear Hfs. induction rows as [| [word v] rows IH]; [reflexivity |].
      cbn [List.filter fst]. rewrite (Hnone word v) by (left; reflexivity).
      apply IH. intros w' v' Hin. apply (Hnone w' v'). right. exact Hin. }
    rewrite Hf. split; reflexivity.
Qed.

Lemma X1_conceptnet_keeps_prefixed_rows_witness :
  exists wv vl,
    read_embeddings Data.conceptnet_fs "ConceptNet" Data.base_dir
    = ([Open (join Data.base_dir "conceptnet_vectors.txt")], inr (wv, vl)) /\
    length wv = length vl /\
    (forall v, In v wv <->
       exists word,
         In (word, v) [("/c/de/Baum", Data.v10); ("/c/en/tree", Data.v34);
                       ("/c/de/a/c/de/b", Data.v34)] /\
         startswith word prefix = true) /\
    ((forall word v,
        In (word, v) [("/c/de/Baum", Data.v10); ("/c/en/tree", Data.v34);
                      ("/c/de/a/c/de/b", Data.v34)] ->
        startswith word prefix = false) ->
     wv = [] /\ vl = []).
Proof.
  apply (X1_conceptnet_keeps_prefixed_rows Data.conceptnet_fs "ConceptNet"
           Data.base_dir).
  - simpl. right. left. reflexivity.
  - reflexivity.
Defined.

(** X2.  Round trip of the ConceptNet branch: a file whose rows are the
    terms of a list, each written with the prefix [/c/de/] in front and
    none containing that prefix itself, is loaded as exactly those terms
    and their vectors, in order. *)
Theorem X2_conceptnet_round_trip :
  forall (fs : filesystem) (et base : string) (items : list (string * ndarray)),
    In (casefold et) ["conceptnetnb"; "conceptnet"] ->
    (forall term v, In (term, v) items -> occurs prefix term = false) ->
    fs (join base "conceptnet_vectors.txt")
    = Some (map (fun it => ((prefix ++ fst it)%string, snd it)) items) ->
    read_embeddings fs et base
    = ([Open (join base "conceptnet_vectors.txt")],
       inr (map snd items, map fst items)).
Proof.
  intros fs et base items Het Hno Hfs.
  rewrite (read_embeddings_conceptnet _ _ _ _ Het Hfs). clear Hfs.
  do 3 f_equal.
  - induction items as [| [term v] items IH]; [reflexivity |].
    cbn [map List.filter fst snd]. unfold startswith at 1. rewrite prefix_app.
    cbn [map snd]. f_equal. apply IH.
    intros t' v' Hin. apply (Hno t' v'). right. exact Hin.
  - induction items as [| [term v] items IH]; [reflexivity |].
    cbn [map List.filter fst snd]. unfold startswith at 1. rewrite prefix_app.
    cbn [map fst]. f_equal.
    + rewrite replace_leading by discriminate.
      rewrite replace_absent; [reflexivity | discriminate |].
      apply (Hno term v). left. reflexivity.
    + apply IH. intros t' v' Hin. apply (Hno t' v'). right. exact Hin.
Qed.

Lemma X2_conceptnet_round_trip_witness :
  read_embeddings
    (Data.fs "conceptnet_vectors.txt"
       (map (fun it => ((prefix ++ fst it)%string, snd it))
            [("Baum", Data.v10); ("Haus", Data.v34)]))
    "conceptnetNB" Data.base_dir
  = ([Open (join Data.base_dir "conceptnet_vectors.txt")],
     inr (map snd [("Baum", Data.v10); ("Haus", Data.v34)],
          map fst [("Baum", Data.v10); ("Haus", Data.v34)])).
Proof.
  apply (X2_conceptnet_round_trip _ "conceptnetNB" Data.base_dir
           [("Baum", Data.v10); ("Haus", Data.v34)]).
  - simpl. left. reflexivity.
  - intros term v [[= <- <-] | [[= <- <-] | []]]; reflexivity.
  - reflexivity.
Defined.

(** X3.  Round trip of the word2vec branch: a file whose labels are the
    words of a list, each wrapped as [b'...'], is loaded as exactly those
    words and their vectors, in order. *)
Theorem X3_word2vec_round_trip :
  forall (fs : filesystem) (et base : string) (items : list (string * ndarray)),
    casefold et = "word2vec" ->
    fs (join base "ger_word2vec_vectors.txt")
    = Some (map (fun it => (("b'" ++ fst it ++ "'")%string, snd it)) items) ->
    read_embeddings fs et base
    = ([Open (join base "ger_word2vec_vectors.txt")],
       inr (map snd items, map fst items)).
Proof.
  intros fs et base items Het Hfs.
  rewrite (read_embeddings_word2vec _ _ _ _ Het Hfs). clear Hfs.
  do 3 f_equal.
  - induction items as [| [w v] items IH]; [reflexivity |].
    cbn [map snd]. f_equal. exact IH.
  - induction items as [| [w v] items IH]; [reflexivity |].
    cbn [map fst snd]. rewrite slice_wrapped. f_equal. exact IH.
Qed.

Lemma X3_word2vec_round_trip_witness :
  read_embeddings Data.word2vec_fs "Word2Vec" Data.base_dir
  = ([Open (join Data.base_dir "ger_word2vec_vectors.txt")],
     inr (map snd [("mond", Data.v10); ("sonne", Data.v34)],
          map fst [("mond", Data.v10); ("sonne", Data.v34)])).
Proof.
  apply (X3_word2vec_round_trip Data.word2vec_fs "Word2Vec" Data.base_dir
           [("mond", Data.v10); ("sonne", Data.v34)]).
  - reflexivity.
  - reflexivity.
Defined.

(** X4.  The word2vec branch stores every raw label of at most three
    characters as the empty label, next to its vector: such rows all fall
    on the one key [""]. *)
Theorem X4_word2vec_short_label_is_empty :
  forall (fs : filesystem) (et base : string) (rows : list (string * ndarray))
         (i : nat) (word : string) (v : ndarray),
    casefold et = "word2vec" ->
    fs (join base "ger_word2vec_vectors.txt") = Some rows ->
    rows !! i = Some (word, v) ->
    (String.length word <= 3)%nat ->
    exists wv vl,
      read_embeddings fs et base
      = ([Open (join base "ger_word2vec_vectors.txt")], inr (wv, vl)) /\
      vl !! i = Some "" /\ wv !! i = Some v.
Proof.
  intros fs et base rows i word v Het Hfs Hi Hlen.
  rewrite (read_embeddings_word2vec _ _ _ _ Het Hfs).
  eexists _, _. split; [reflexivity |].
  change (map snd rows) with (snd <$> rows).
  change (map (fun r : string * ndarray => slice (fst r) 2 1) rows)
    with ((fun r : string * ndarray => slice (fst r) 2 1) <$> rows).
  rewrite !list_lookup_fmap, Hi. split; [| reflexivity].
  change (Some (slice word 2 1) = Some ""). rewrite (slice_short word Hlen).
  reflexivity.
Qed.

Lemma X4_word2vec_short_label_witness :
  exists wv vl,
    read_embeddings
      (Data.fs "ger_word2vec_vectors.txt" [("b'mond'", Data.v10); ("2", Data.v34)])
      "word2vec" Data.base_dir
    = ([Open (join Data.base_dir "ger_word2vec_vectors.txt")], inr (wv, vl)) /\
    vl !! 1%nat = Some "" /\ wv !! 1%nat = Some Data.v34.
Proof.
  apply (X4_word2vec_short_label_is_empty _ "word2vec" Data.base_dir
           [("b'mond'", Data.v10); ("2", Data.v34)] 1 "2" Data.v34).
  - reflexivity.
  - reflexivity.
  - reflexivity.
  - simpl. lia.
Defined.

(** What [vstack] returns: its argument, which is then not empty and has
    rows of one length. *)
Lemma vstack_returns (rows : list ndarray) tr vs :
  vstack rows = (tr, inr vs) ->
  tr = [] /\ vs = rows /\ rows <> [] /\
  exists d, forall r, In r rows -> length r = d.
Proof.
  unfold vstack. destruct rows as [| r rest]; [discriminate |].
  destruct (forallb (fun r' => (length r' =? length r)%nat) rest) eqn:Hall;
    [| discriminate].
  intros [= <- <-]. split_and!; [reflexivity | reflexivity | discriminate |].
  exists (length r). intros r' [<- | Hin]; [reflexivity |].
  rewrite forallb_forall in Hall. apply Nat.eqb_eq, Hall, Hin.
Qed.

Lemma vstack_ragged (r : ndarray) (rest : list ndarray) (r' : ndarray) :
  In r' rest -> length r' <> length r ->
  vstack (r :: rest)
  = ([], inl (ValueError "all the input array dimensions must match")).
Proof.
  intros Hin Hne. unfold vstack.
  destruct (forallb (fun r' => (length r' =? length r)%nat) rest) eqn:Hall;
    [| reflexivity].
  rewrite forallb_forall in Hall. apply Hall, Nat.eqb_eq in Hin. contradiction.
Qed.

(** What a returning call of [read_embeddings] read, branch by branch. *)
Lemma read_embeddings_returns_inv fs et base tr wv vl :
  read_embeddings fs et base = (tr, inr (wv, vl)) ->
  exists name rows,
    fs (join base name) = Some rows /\ tr = [Open (join base name)] /\
    ((casefold et = "word2vec" /\ name = "ger_word2vec_vectors.txt" /\
      wv = map snd rows /\ vl = map (fun r => slice (fst r) 2 1) rows) \/
     (casefold et = "glove" /\ name = "ger_glove_vectors.txt" /\
      wv = map snd rows /\ vl = map fst rows /\
      vstack (map snd rows) = ([], inr wv)) \/
     (In (casefold et) ["conceptnetnb"; "conceptnet"] /\
      name = "conceptnet_vectors.txt" /\
      wv = map snd (List.filter (fun r => startswith (fst r) prefix) rows) /\
      vl = map (fun r => replace (fst r) prefix "")
               (List.filter (fun r => startswith (fst r) prefix) rows))).
Proof.
  intros H. pose proof H as Hrec.
  apply read_embeddings_returns_recognized in Hrec. unfold recognized in Hrec.
  destruct Hrec as [Het | [Het | Het]].
  - symmetry in Het.
    destruct (fs (join base "ger_word2vec_vectors.txt")) as [rows |] eqn:Hfs.
    + rewrite (read_embeddings_word2vec _ _ _ _ Het Hfs) in H.
      injection H as <- <- <-. exists "ger_word2vec_vectors.txt", rows. auto 10.
    + unfold read_embeddings, embeddings_reader in H. rewrite Het, Hfs in H.
      discriminate H.
  - symmetry in Het.
    destruct (fs (join base "ger_glove_vectors.txt")) as [rows |] eqn:Hfs.
    + destruct (vstack (map snd rows)) as [tv [e | vs]] eqn:Hvs.
      * unfold read_embeddings in H. rewrite Het in H.
        change (String.eqb "glove" "word2vec") with false in H.
        change (String.eqb "glove" "glove") with true in H. cbv iota in H.
        rewrite (embeddings_reader_some _ _ _ Hfs) in H.
        unfold bind at 1 in H. rewrite glove_loop in H. cbn [app] in H.
        rewrite Hvs in H. discriminate H.
      * pose proof (vstack_returns _ _ _ Hvs) as (-> & -> & _).
        rewrite (read_embeddings_glove _ _ _ _ _ Het Hfs Hvs) in H.
        injection H as <- <- <-. exists "ger_glove_vectors.txt", rows. auto 10.
    + unfold read_embeddings, embeddings_reader in H. rewrite Het, Hfs in H.
      discriminate H.
  - assert (Hcn : In (casefold et) ["conceptnetnb"; "conceptnet"]).
    { destruct Het as [<- | [<- | []]]; simpl; auto. }
    destruct (fs (join base "conceptnet_vectors.txt")) as [rows |] eqn:Hfs.
    + rewrite (read_embeddings_conceptnet _ _ _ _ Hcn Hfs) in H.
      injection H as <- <- <-. exists "conceptnet_vectors.txt", rows. auto 10.
    + assert (Hcase : String.eqb (casefold et) "word2vec" = false /\
                      String.eqb (casefold et) "glove" = false /\
                      existsb (String.eqb (casefold et))
                              ["conceptnetnb"; "conceptnet"] = true).
      { destruct Hcn as [<- | [<- | []]]; repeat split. }
      destruct Hcase as (E1 & E2 & E3).
      unfold read_embeddings, embeddings_reader in H.
      rewrite E1, E2, E3, Hfs in H. discriminate H.
Qed.

(** The two lists a loader returns have the same length. *)
Lemma read_embeddings_lengths fs et base tr wv vl :
  read_embeddings fs et base = (tr, inr (wv, vl)) -> length wv = length vl.
Proof.
  intros H. apply read_embeddings_returns_inv in H
    as (name & rows & _ & _ & [H | [H | H]]).
  - destruct H as (_ & _ & -> & ->). rewrite !length_map. reflexivity.
  - destruct H as (_ & _ & -> & -> & _). rewrite !length_map. reflexivity.
  - destruct H as (_ & _ & -> & ->). rewrite !length_map. reflexivity.
Qed.

(** What a returning construction built. *)
Lemma init_returns_inv fs et base tr self :
  __init__ fs et base = (tr, inr self) ->
  read_embeddings fs et base = (tr, inr (word_vectors self, vector_labels self)) /\
  embedding_type self = et /\
  dict self = make_embedding_map (word_vectors self) (vector_labels self).
Proof.
  unfold __init__. intros H.
  apply bind_inv_returns in H as (tr1 & [wv vl] & tr2 & Hr & Hk & ->).
  unfold ret in Hk. injection Hk as <- <-. rewrite app_nil_r. auto.
Qed.

(** X5.  With an empty file, the GloVe branch raises [ValueError] (there is
    nothing to stack) once the file is opened, while the word2vec and the
    ConceptNet branch build an empty store, in which every lookup is
    missing. *)
Theorem X5_empty_file :
  forall (fs : filesystem) (et base : string),
    recognized et ->
    (forall path, fs path = Some []) ->
    (casefold et = "glove" ->
     __init__ fs et base
     = ([Open (join base "ger_glove_vectors.txt")],
        inl (ValueError "need at least one array to concatenate"))) /\
    (casefold et <> "glove" ->
     exists tr self,
       __init__ fs et base = (tr, inr self) /\
       word_vectors self = [] /\ vector_labels self = [] /\
       forall w, __getitem__ self w = None).
Proof.
  intros fs et base Hrec Hfs. split.
  - intros Het. unfold __init__, read_embeddings. rewrite Het.
    change (String.eqb "glove" "word2vec") with false.
    change (String.eqb "glove" "glove") with true. cbv iota.
    rewrite (embeddings_reader_some _ _ _ (Hfs _)). reflexivity.
  - intros Hng. unfold recognized in Hrec.
    destruct Hrec as [Het | [Het | Het]]; [| congruence |].
    + symmetry in Het. unfold __init__.
      rewrite (read_embeddings_word2vec _ _ _ _ Het (Hfs _)).
      eexists _, _. split; [reflexivity |]. split_and!; try reflexivity.
    + assert (Hcn : In (casefold et) ["conceptnetnb"; "conceptnet"]).
      { destruct Het as [<- | [<- | []]]; simpl; auto. }
      unfold __init__.
      rewrite (read_embeddings_conceptnet _ _ _ _ Hcn (Hfs _)).
      eexists _, _. split; [reflexivity |]. split_and!; try reflexivity.
Qed.

Lemma X5_empty_file_witness :
  __init__ Data2.empty_fs "GloVe" Data.base_dir
  = ([Open (join Data.base_dir "ger_glove_vectors.txt")],
     inl (ValueError "need at least one array to concatenate")) /\
  exists tr self,
    __init__ Data2.empty_fs "word2vec" Data.base_dir = (tr, inr self) /\
    word_vectors self = [] /\ vector_labels self = [] /\
    forall w, __getitem__ self w = None.
Proof.
  split.
  - apply (X5_empty_file Data2.empty_fs "GloVe" Data.base_dir).
    + unfold recognized. simpl. auto.
    + reflexivity.
    + reflexivity.
  - apply (X5_empty_file Data2.empty_fs "word2vec" Data.base_dir).
    + unfold recognized. simpl. auto.
    + reflexivity.
    + discriminate.
Defined.

(** ** Further properties of the store *)

(** Where an entry of the folded map comes from: the last pair with its
    key, or the initial map if no pair has the key. *)
Lemma fold_insert_lookup_inv {V} (pairs : list (string * V)) (m : gmap string V) k v :
  fold_left (fun m kv => <[fst kv := snd kv]> m) pairs m !! k = Some v ->
  (exists i, pairs !! i = Some (k, v) /\
             forall j v', (i < j)%nat -> pairs !! j <> Some (k, v')) \/
  ((forall j v', pairs !! j <> Some (k, v')) /\ m !! k = Some v).
Proof.
  revert m. induction pairs as [| [k' v'] pairs IH]; intros m H.
  - right. split; [intros j w; destruct j; discriminate | exact H].
  - cbn [fold_left fst snd] in H. apply IH in H as [(i & Hi & Hlast) | [Hno Hm]].
    + left. exists (S i). split; [exact Hi |].
      intros [| j] w Hj; [lia |]. apply Hlast. lia.
    + destruct (decide (k' = k)) as [-> | Hne].
      * rewrite lookup_insert_eq in Hm. injection Hm as ->.
        left. exists 0%nat. split; [reflexivity |].
        intros [| j] w Hj; [lia |]. apply Hno.
      * rewrite lookup_insert_ne in Hm by exact Hne.
        right. split; [| exact Hm].
        intros [| j] w; [intros [= -> _]; congruence | apply Hno].
Qed.

(** X6.  [make_embedding_map] holds [v] under [l] exactly when [l] and [v]
    stand at a common position of the two lists and [l] does not occur at
    a later position that still has a vector; labels beyond the end of the
    vector list are not keys. *)
Theorem X6_make_embedding_map_lookup_iff :
  forall (word_vectors : list ndarray) (vector_labels : list string)
         (l : string) (v : ndarray),
    make_embedding_map word_vectors vector_labels !! l = Some v <->
    exists i, vector_labels !! i = Some l /\ word_vectors !! i = Some v /\
              forall j, (i < j)%nat -> (j < length word_vectors)%nat ->
                        vector_labels !! j <> Some l.
Proof.
  intros wv vl l v. split.
  - unfold make_embedding_map, py_dict. intros H.
    apply fold_insert_lookup_inv in H as [(i & Hi & Hlast) | [_ Hm]];
      [| rewrite lookup_empty in Hm; discriminate Hm].
    rewrite lookup_combine in Hi.
    destruct (vl !! i) as [l' |] eqn:El; [| discriminate].
    destruct (wv !! i) as [w |] eqn:Ew; [| discriminate].
    injection Hi as -> ->. exists i. split_and!; [exact El | exact Ew |].
    intros j Hj Hlt Hl.
    destruct (lookup_lt_is_Some_2 wv j Hlt) as [w' Hw'].
    apply (Hlast j w' Hj). rewrite lookup_combine, Hl, Hw'. reflexivity.
  - intros (i & Hl & Hv & Hlast). unfold make_embedding_map.
    apply (py_dict_last _ i).
    + rewrite lookup_combine, Hl, Hv. reflexivity.
    + intros j v' Hj. rewrite lookup_combine.
      destruct (vl !! j) as [l' |] eqn:El; [| discriminate].
      destruct (wv !! j) as [w |] eqn:Ew; [| discriminate].
      intros [= -> ->]. apply (Hlast j Hj); [| exact El].
      apply lookup_lt_Some in Ew. exact Ew.
Qed.

(** An entry of the mapping stands at a common position of the lists. *)
Lemma make_embedding_map_lookup_source (wv : list ndarray) (vl : list string) l v :
  make_embedding_map wv vl !! l = Some v ->
  exists i, vl !! i = Some l /\ wv !! i = Some v.
Proof.
  unfold make_embedding_map, py_dict. intros H.
  apply fold_insert_lookup_inv in H as [(i & Hi & _) | [_ Hm]];
    [| rewrite lookup_empty in Hm; discriminate Hm].
  rewrite lookup_combine in Hi.
  destruct (vl !! i) as [l' |] eqn:El; [| discriminate].
  destruct (wv !! i) as [w |] eqn:Ew; [| discriminate].
  injection Hi as -> ->. eauto.
Qed.

(** A label with a vector at its position is a key. *)
Lemma make_embedding_map_is_Some (wv : list ndarray) (vl : list string) l :
  length wv = length vl -> l ∈ vl -> is_Some (make_embedding_map wv vl !! l).
Proof.
  intros Hlen Hin.
  assert (Hex : exists i, vl !! i = Some l /\
                  forall j, (i < j)%nat -> vl !! j <> Some l).
  { clear Hlen. induction vl as [| a vl IH]; [inversion Hin |].
    destruct (decide (l ∈ vl)) as [Hl | Hl].
    - destruct (IH Hl) as (i & Hi & Hlast). exists (S i). split; [exact Hi |].
      intros [| j] Hj; [lia |]. apply Hlast. lia.
    - apply elem_of_cons in Hin as [-> | Hin]; [| contradiction].
      exists 0%nat. split; [reflexivity |].
      intros [| j] Hj; [lia |]. cbn. intros Hj'. apply Hl.
      apply list_elem_of_lookup. eauto. }
  destruct Hex as (i & Hi & Hlast).
  destruct (lookup_lt_is_Some_2 wv i) as [v Hv].
  { rewrite Hlen. apply lookup_lt_Some in Hi. exact Hi. }
  exists v. unfold make_embedding_map. apply (py_dict_last _ i).
  - rewrite lookup_combine, Hi, Hv. reflexivity.
  - intros j v' Hj. rewrite lookup_combine.
    destruct (vl !! j) as [l' |] eqn:El; [| discriminate].
    destruct (wv !! j) as [w |] eqn:Ew; [| discriminate].
    intros [= -> ->]. exact (Hlast j Hj El).
Qed.

Lemma getitem_constructed_dict fs et base tr self w :
  __init__ fs et base = (tr, inr self) ->
  __getitem__ self w
  = make_embedding_map (word_vectors self) (vector_labels self) !! lower w.
Proof.
  intros H. rewrite (getitem_constructed _ _ _ _ _ w H).
  apply init_returns_inv in H as (_ & _ & ->). reflexivity.
Qed.

(** X7.  A GloVe store that was constructed has at least one vector, and
    all its vectors have one length: the stacking step of the GloVe branch
    rejects every other file.  So every two vectors that lookups return
    have the same length. *)
Theorem X7_glove_store_uniform_dimension :
  forall (fs : filesystem) (et base : string) tr (self : WordEmbeddings),
    casefold et = "glove" ->
    __init__ fs et base = (tr, inr self) ->
    word_vectors self <> [] /\
    exists d, (forall v, In v (word_vectors self) -> length v = d) /\
              forall w v, __getitem__ self w = Some v -> length v = d.
Proof.
  intros fs et base tr self Het Hinit.
  pose proof (init_returns_inv _ _ _ _ _ Hinit) as (Hread & _ & _).
  apply read_embeddings_returns_inv in Hread
    as (name & rows & _ & _ & [H | [H | H]]).
  - destruct H as (Het' & _). congruence.
  - destruct H as (_ & _ & Hwv & _ & Hvs).
    apply vstack_returns in Hvs as (_ & _ & Hne & d & Hd).
    rewrite <- Hwv in Hne, Hd. split; [exact Hne |].
    exists d. split; [exact Hd |].
    intros w v Hw. rewrite (getitem_constructed_dict _ _ _ _ _ w Hinit) in Hw.
    apply make_embedding_map_lookup_source in Hw as (i & _ & Hv).
    apply Hd. apply list_elem_of_In, list_elem_of_lookup. eauto.
  - destruct H as (Hcn & _). rewrite Het in Hcn.
    destruct Hcn as [Hcn | [Hcn | []]]; discriminate Hcn.
Qed.

Lemma X7_glove_store_uniform_dimension_witness :
  word_vectors Data.glove_store <> [] /\
  exists d, (forall v, In v (word_vectors Data.glove_store) -> length v = d) /\
            forall w v, __getitem__ Data.glove_store w = Some v -> length v = d.
Proof.
  apply (X7_glove_store_uniform_dimension Data.glove_fs "GloVe" Data.base_dir
           [Open "./word_vectors/ger_glove_vectors.txt"] Data.glove_store).
  - reflexivity.
  - reflexivity.
Defined.

(** X8.  A GloVe file in which some row has a vector of another length
    than the first row makes the construction of the store raise
    [ValueError], after the file was opened: no GloVe store with vectors
    of different lengths is ever built. *)
Theorem X8_glove_ragged_file_raises :
  forall (fs : filesystem) (et base : string)
         (w0 : string) (v0 : ndarray) (rest : list (string * ndarray))
         (w : string) (v : ndarray),
    casefold et = "glove" ->
    fs (join base "ger_glove_vectors.txt") = Some ((w0, v0) :: rest) ->
    In (w, v) rest ->
    length v <> length v0 ->
    exists msg,
      __init__ fs et base
      = ([Open (join base "ger_glove_vectors.txt")], inl (ValueError msg)).
Proof.
  intros fs et base w0 v0 rest w v Het Hfs Hin Hne.
  eexists. unfold __init__, read_embeddings. rewrite Het.
  change (String.eqb "glove" "word2vec") with false.
  change (String.eqb "glove" "glove") with true. cbv iota.
  rewrite (embeddings_reader_some _ _ _ Hfs).
  unfold bind at 2. rewrite glove_loop. cbn [app map snd].
  rewrite (vstack_ragged v0 (map snd rest) v); [reflexivity | | exact Hne].
  apply in_map_iff. exists (w, v). auto.
Qed.

Lemma X8_glove_ragged_file_witness :
  exists msg,
    __init__ Data2.ragged_fs "glove" Data.base_dir
    = ([Open (join Data.base_dir "ger_glove_vectors.txt")], inl (ValueError msg)).
Proof.
  apply (X8_glove_ragged_file_raises Data2.ragged_fs "glove" Data.base_dir
           "haus" Data.v10 [("baum", [F32.one])] "baum" [F32.one]).
  - reflexivity.
  - reflexivity.
  - left. reflexivity.
  - simpl. lia.
Defined.

(** X9.  For a recognized source identifier, [read_embeddings] depends on
    the identifier only through its case-folded form: two spellings that
    differ in case load the same table from the same file. *)
Theorem X9_source_identifier_case_insensitive :
  forall (fs : filesystem) (et et' base : string),
    recognized et ->
    casefold et = casefold et' ->
    read_embeddings fs et base = read_embeddings fs et' base.
Proof.
  intros fs et et' base Hrec Heq. unfold read_embeddings. rewrite <- Heq.
  destruct (String.eqb (casefold et) "word2vec") eqn:E1; [reflexivity |].
  destruct (String.eqb (casefold et) "glove") eqn:E2; [reflexivity |].
  destruct (existsb (String.eqb (casefold et)) ["conceptnetnb"; "conceptnet"])
    eqn:E3; [reflexivity |].
  exfalso. unfold recognized in Hrec.
  destruct Hrec as [H | [H | [H | [H | []]]]]; rewrite <- H in *;
    discriminate.
Qed.

Lemma X9_source_identifier_witness :
  read_embeddings Data.glove_fs "GloVe" Data.base_dir
  = read_embeddings Data.glove_fs "GLOVE" Data.base_dir.
Proof.
  apply (X9_source_identifier_case_insensitive Data.glove_fs "GloVe" "GLOVE").
  - unfold recognized. simpl. auto.
  - reflexivity.
Defined.

Lemma reader_trace fs file_name :
  fst (embeddings_reader fs file_name) = [Open file_name].
Proof. unfold embeddings_reader. destruct (fs file_name); reflexivity. Qed.

(** X10.  Whatever the outcome, [read_embeddings] with a recognized
    identifier performs exactly one event: it opens the one file of its
    source under [base_dir] ([conceptnet] and [conceptnetnb] share a
    file), and it prints nothing. *)
Theorem X10_read_embeddings_opens_one_file :
  forall (fs : filesystem) (et base : string),
    (casefold et = "word2vec" ->
     fst (read_embeddings fs et base)
     = [Open (join base "ger_word2vec_vectors.txt")]) /\
    (casefold et = "glove" ->
     fst (read_embeddings fs et base)
     = [Open (join base "ger_glove_vectors.txt")]) /\
    (In (casefold et) ["conceptnetnb"; "conceptnet"] ->
     fst (read_embeddings fs et base)
     = [Open (join base "conceptnet_vectors.txt")]).
Proof.
  intros fs et base. split_and!.
  - intros Het. unfold read_embeddings, embeddings_reader. rewrite Het.
    change (String.eqb "word2vec" "word2vec") with true. cbv iota.
    destruct (fs (join base "ger_word2vec_vectors.txt")); reflexivity.
  - intros Het. unfold read_embeddings, embeddings_reader. rewrite Het.
    change (String.eqb "glove" "word2vec") with false.
    change (String.eqb "glove" "glove") with true. cbv iota.
    destruct (fs (join base "ger_glove_vectors.txt")) as [rows |];
      [| reflexivity].
    unfold bind at 2. cbn [emit ret fst snd app].
    unfold bind at 1. rewrite glove_loop. cbn [app].
    destruct (vstack (map snd rows)) as [tv [e | vs]] eqn:Hvs.
    + unfold vstack in Hvs. destruct (map snd rows) as [| r rs];
        [injection Hvs as <- _; reflexivity |].
      destruct (forallb _ rs); injection Hvs as <- _; reflexivity.
    + apply vstack_returns in Hvs as (-> & _). reflexivity.
  - intros Hcn.
    assert (Hcase : String.eqb (casefold et) "word2vec" = false /\
                    String.eqb (casefold et) "glove" = false /\
                    existsb (String.eqb (casefold et))
                            ["conceptnetnb"; "conceptnet"] = true).
    { destruct Hcn as [<- | [<- | []]]; repeat split. }
    destruct Hcase as (E1 & E2 & E3).
    unfold read_embeddings, embeddings_reader. rewrite E1, E2, E3.
    destruct (fs (join base "conceptnet_vectors.txt")); reflexivity.
Qed.

Lemma X10_read_embeddings_opens_one_file_witness :
  fst (read_embeddings Data2.no_fs "ConceptNet" Data.base_dir)
  = [Open (join Data.base_dir "conceptnet_vectors.txt")] /\
  fst (read_embeddings Data2.ragged_fs "GloVe" Data.base_dir)
  = [Open (join Data.base_dir "ger_glove_vectors.txt")].
Proof.
  split.
  - apply (X10_read_embeddings_opens_one_file Data2.no_fs "ConceptNet" Data.base_dir).
    simpl. right. left. reflexivity.
  - apply (X10_read_embeddings_opens_one_file Data2.ragged_fs "GloVe" Data.base_dir).
    reflexivity.
Defined.

Lemma ascii_lower_idempotent (c : ascii) :
  ascii_lower (ascii_lower c) = ascii_lower c.
Proof. destruct c as [[] [] [] [] [] [] [] []]; reflexivity. Qed.

Lemma lower_idempotent (s : string) : lower (lower s) = lower s.
Proof.
  induction s as [| c s IH]; [reflexivity |].
  cbn [lower]. rewrite ascii_lower_idempotent, IH. reflexivity.
Qed.

Lemma getitem_constructed_dict_with str_lower fs et base tr self w :
  lowers_ascii str_lower ->
  __init__ fs et base = (tr, inr self) ->
  getitem str_lower self w
  = make_embedding_map (word_vectors self) (vector_labels self) !! str_lower w.
Proof.
  intros Hlow H. rewrite (getitem_constructed_with _ _ _ _ _ _ w Hlow H).
  apply init_returns_inv in H as (_ & _ & ->). reflexivity.
Qed.

(** X11.  In a constructed store a word is found exactly when its
    lowercased form, that of [str.lower] on any text, is one of the loaded
    labels, and the vector found is one of the loaded vectors. *)
Theorem X11_lookup_finds_loaded_labels :
  forall (str_lower : string -> string) (fs : filesystem) (et base : string) tr
         (self : WordEmbeddings) (w : string),
    lowers_ascii str_lower ->
    __init__ fs et base = (tr, inr self) ->
    (is_Some (getitem str_lower self w) <-> str_lower w ∈ vector_labels self) /\
    (forall v, getitem str_lower self w = Some v -> v ∈ word_vectors self).
Proof.
  intros str_lower fs et base tr self w Hlow Hinit.
  rewrite (getitem_constructed_dict_with _ _ _ _ _ _ w Hlow Hinit).
  pose proof (init_returns_inv _ _ _ _ _ Hinit) as (Hread & _ & _).
  apply read_embeddings_lengths in Hread. split; [split |].
  - intros [v Hv].
    apply make_embedding_map_lookup_source in Hv as (i & Hl & _).
    apply list_elem_of_lookup. eauto.
  - intros Hin. apply make_embedding_map_is_Some; assumption.
  - intros v Hv.
    apply make_embedding_map_lookup_source in Hv as (i & _ & Hv).
    apply list_elem_of_lookup. eauto.
Qed.

Lemma X11_lookup_finds_loaded_labels_witness :
  (is_Some (getitem lower_latin Data3.umlaut_store "TÜR")
   <-> lower_latin "TÜR" ∈ vector_labels Data3.umlaut_store) /\
  (forall v, getitem lower_latin Data3.umlaut_store "TÜR" = Some v ->
             v ∈ word_vectors Data3.umlaut_store).
Proof.
  apply (X11_lookup_finds_loaded_labels lower_latin Data3.umlaut_fs "GloVe"
           Data.base_dir [Open "./word_vectors/ger_glove_vectors.txt"]
           Data3.umlaut_store "TÜR").
  - exact lowers_ascii_lower_latin.
  - reflexivity.
Defined.

(** X12.  In a constructed store the lookup does not see the case of its
    key: two keys with the same lowercased form, that of [str.lower] on
    any text, are looked up alike, and a key is looked up like its
    lowercased form wherever lowercasing that form again changes
    nothing. *)
Theorem X12_lookup_case_insensitive :
  forall (str_lower : string -> string) (fs : filesystem) (et base : string) tr
         (self : WordEmbeddings),
    lowers_ascii str_lower ->
    __init__ fs et base = (tr, inr self) ->
    (forall w w', str_lower w = str_lower w' ->
                  getitem str_lower self w = getitem str_lower self w') /\
    (forall w, str_lower (str_lower w) = str_lower w ->
               getitem str_lower self (str_lower w) = getitem str_lower self w).
Proof.
  intros str_lower fs et base tr self Hlow Hinit. split.
  - intros w w' Heq.
    rewrite (getitem_constructed_with _ _ _ _ _ _ w Hlow Hinit).
    rewrite (getitem_constructed_with _ _ _ _ _ _ w' Hlow Hinit).
    rewrite Heq. reflexivity.
  - intros w Hidem.
    rewrite (getitem_constructed_with _ _ _ _ _ _ (str_lower w) Hlow Hinit).
    rewrite (getitem_constructed_with _ _ _ _ _ _ w Hlow Hinit).
    rewrite Hidem. reflexivity.
Qed.

Lemma X12_lookup_case_insensitive_witness :
  getitem lower_latin Data3.umlaut_store "TÜR"
  = getitem lower_latin Data3.umlaut_store "Tür" /\
  getitem lower_latin Data3.umlaut_store (lower_latin "TÜR")
  = getitem lower_latin Data3.umlaut_store "TÜR".
Proof.
  destruct (X12_lookup_case_insensitive lower_latin Data3.umlaut_fs "GloVe"
              Data.base_dir [Open "./word_vectors/ger_glove_vectors.txt"]
              Data3.umlaut_store) as [Hsame Hlow].
  - exact lowers_ascii_lower_latin.
  - reflexivity.
  - split; [apply Hsame; reflexivity | apply Hlow; reflexivity].
Defined.

(* ===================================================================== *)
(** * Further properties of the similarity *)
(* ===================================================================== *)

Lemma cosine_similarity_trace (x y : ndarray) :
  fst (Sklearn.cosine_similarity x y) = [].
Proof.
  destruct (cosine_similarity_cases x y) as [[_ ->] | [_ [e ->]]]; reflexivity.
Qed.

Lemma printed_cases self w1 w2 :
  printed (get_cosine_similarity self w1 w2)
  = match __getitem__ self w1, __getitem__ self w2 with
    | None, _ => [("no vectors for word " ++ w1)%string]
    | Some _, None => [("no vectors for word " ++ w2)%string]
    | Some _, Some _ => []
    end.
Proof.
  unfold get_cosine_similarity, printed.
  destruct (__getitem__ self w1) as [v1 |]; [| reflexivity].
  destruct (__getitem__ self w2) as [v2 |]; [| reflexivity].
  pose proof (cosine_similarity_trace v1 v2) as Htr.
  destruct (Sklearn.cosine_similarity v1 v2) as [t [e | k]];
    cbn in Htr; subst t; reflexivity.
Qed.

(** X13.  What [get_cosine_similarity] prints: one line naming [w1] when
    [w1] is missing, whether or not [w2] is missing too; else one line
    naming [w2] when [w2] is missing; and nothing when both words are
    found, also when the computation raises. *)
Theorem X13_diagnostics_of_get_cosine_similarity :
  forall (self : WordEmbeddings) (w1 w2 : string),
    printed (get_cosine_similarity self w1 w2)
    = match __getitem__ self w1, __getitem__ self w2 with
      | None, _ => [("no vectors for word " ++ w1)%string]
      | Some _, None => [("no vectors for word " ++ w2)%string]
      | Some _, Some _ => []
      end /\
    length (fst (get_cosine_similarity self w1 w2))
    = length (printed (get_cosine_similarity self w1 w2)).
Proof.
  intros self w1 w2. unfold get_cosine_similarity, printed.
  destruct (__getitem__ self w1) as [v1 |]; [| split; reflexivity].
  destruct (__getitem__ self w2) as [v2 |]; [| split; reflexivity].
  pose proof (cosine_similarity_trace v1 v2) as Htr.
  destruct (Sklearn.cosine_similarity v1 v2) as [t [e | k]];
    cbn in Htr; subst t; split; reflexivity.
Qed.

Lemma zero_vector_finite (v : ndarray) :
  is_zero_vector v = true -> forallb F32.is_finite v = true.
Proof.
  induction v as [| x v IH]; [reflexivity |].
  cbn [is_zero_vector forallb]. intros H. apply andb_prop in H as [Hx Hv].
  destruct x; try discriminate Hx. cbn [F32.is_finite andb]. exact (IH Hv).
Qed.

Lemma zero_vector_dot_self (v : ndarray) :
  is_zero_vector v = true ->
  fold_left (fun acc ab => F32.add acc (F32.mul (fst ab) (snd ab)))
            (combine v v) (S754_zero false)
  = S754_zero false.
Proof.
  induction v as [| x v IH]; [reflexivity |].
  cbn [is_zero_vector forallb]. intros H. apply andb_prop in H as [Hx Hv].
  destruct x as [s | | |]; try discriminate Hx.
  cbn [combine fold_left fst snd].
  replace (F32.mul (S754_zero s) (S754_zero s)) with (S754_zero false)
    by (destruct s; reflexivity).
  exact (IH Hv).
Qed.

(** X14.  The similarity of a word with itself is exactly 0.0, and not 1,
    when the word's vector is a non-empty zero vector: the diagonal of a
    similarity matrix is not always the unit. *)
Theorem X14_zero_vector_self_similarity :
  forall (self : WordEmbeddings) (w : string) (v : ndarray),
    __getitem__ self w = Some v ->
    is_zero_vector v = true ->
    v <> [] ->
    get_cosine_similarity self w w = ([], inr (Some (S754_zero false))).
Proof.
  intros self w v Hw Hz Hne.
  assert (Hvalid : valid_pair v v = true).
  { unfold valid_pair. rewrite (zero_vector_finite v Hz), Nat.eqb_refl.
    destruct v; [congruence | reflexivity]. }
  rewrite (get_cosine_similarity_valid _ _ _ _ _ Hw Hw Hvalid).
  rewrite (normalize_zero_vector v Hz). unfold Sklearn.dot, F32.zero.
  rewrite (zero_vector_dot_self v Hz). reflexivity.
Qed.

Lemma X14_zero_vector_self_similarity_witness :
  get_cosine_similarity Data.glove_store "nul" "nul"
  = ([], inr (Some (S754_zero false))).
Proof.
  apply (X14_zero_vector_self_similarity Data.glove_store "nul" Data.v00).
  - vm_compute. reflexivity.
  - reflexivity.
  - discriminate.
Defined.

Lemma cosine_similarity_raises (x y : ndarray) :
  valid_pair x y = false ->
  exists msg, Sklearn.cosine_similarity x y = ([], inl (ValueError msg)).
Proof.
  unfold valid_pair, Sklearn.cosine_similarity, Sklearn.check_pairwise_arrays,
    Sklearn.check_array.
  destruct (forallb F32.is_finite x); cbn [negb andb]; [| eexists; reflexivity].
  destruct (length x =? 0)%nat; cbn [negb andb]; [eexists; reflexivity |].
  destruct (forallb F32.is_finite y); cbn [negb andb]; [| eexists; reflexivity].
  destruct (length y =? 0)%nat; cbn [negb andb]; [eexists; reflexivity |].
  destruct (length x =? length y)%nat; cbn [negb]; [discriminate |].
  eexists; reflexivity.
Qed.

(** X15.  When both words are found but their vectors are no valid pair
    (different lengths, an empty vector, an entry that is not finite),
    [get_cosine_similarity] raises [ValueError]; it prints nothing and does
    not turn the failure into a missing result. *)
Theorem X15_invalid_pair_raises :
  forall (self : WordEmbeddings) (w1 w2 : string) (v1 v2 : ndarray),
    __getitem__ self w1 = Some v1 ->
    __getitem__ self w2 = Some v2 ->
    valid_pair v1 v2 = false ->
    exists msg, get_cosine_similarity self w1 w2 = ([], inl (ValueError msg)).
Proof.
  intros self w1 w2 v1 v2 H1 H2 Hv.
  rewrite (get_cosine_similarity_found _ _ _ _ _ H1 H2).
  destruct (cosine_similarity_raises v1 v2 Hv) as [msg ->].
  exists msg. reflexivity.
Qed.

Lemma X15_invalid_pair_raises_witness :
  exists msg,
    get_cosine_similarity Data2.mixed_store "Mond" "2" = ([], inl (ValueError msg)).
Proof.
  apply (X15_invalid_pair_raises Data2.mixed_store "Mond" "2"
           Data.v10 [F32.of_Z 3]).
  - vm_compute. reflexivity.
  - vm_compute. reflexivity.
  - reflexivity.
Defined.

(* ===================================================================== *)
(** * Further properties of the similarity matrix *)
(* ===================================================================== *)

(** The frame of a store that satisfies the table invariant: every cell of
    a pair of listed words holds the similarity value of that pair. *)
Lemma similarity_matrix_returns self (words : list string) :
  table_ok self ->
  exists tr df,
    similarity_matrix self words = (tr, inr df) /\
    forall a b, a ∈ words -> b ∈ words ->
      cells df !! (a, b) = Some (Obj (similarity_value self a b)).
Proof.
  intros Hok. unfold similarity_matrix.
  destruct (fill_loop self Hok (product2 words) (DataFrame_new words words))
    as (tr & df & Hloop & _ & _ & Hcells).
  { intros [a b] Hp. apply elem_of_product2 in Hp. exact Hp. }
  exists tr, df. split; [exact Hloop |].
  intros a b Ha Hb. rewrite Hcells.
  rewrite bool_decide_eq_true_2 by (apply elem_of_product2; auto). reflexivity.
Qed.

Lemma similarity_value_missing self w x :
  __getitem__ self w = None ->
  similarity_value self w x = None /\ similarity_value self x w = None.
Proof.
  intros Hw. unfold similarity_value, get_cosine_similarity. rewrite Hw.
  split; [reflexivity |].
  destruct (__getitem__ self x) as [vx |]; reflexivity.
Qed.

(** X16.  The similarity matrix of distinct words over a store that
    satisfies the table invariant is filled and symmetric: the cell of
    every pair [(a, b)] of listed words holds an assigned value, [None] or
    a float and not the [NaN] the frame started with, and the cell of
    [(b, a)] holds the same value. *)
Theorem X16_similarity_matrix_symmetric :
  forall (self : WordEmbeddings) (list_words : list string),
    NoDup list_words ->
    table_ok self ->
    exists tr df,
      similarity_matrix self list_words = (tr, inr df) /\
      forall a b, a ∈ list_words -> b ∈ list_words ->
        exists s : option F32.t,
          cells df !! (a, b) = Some (Obj s) /\
          cells df !! (b, a) = Some (Obj s).
Proof.
  intros self words _ Hok.
  destruct (similarity_matrix_returns self words Hok) as (tr & df & Hrun & Hcells).
  exists tr, df. split; [exact Hrun |].
  intros a b Ha Hb. exists (similarity_value self a b).
  rewrite (Hcells a b Ha Hb), (Hcells b a Hb Ha).
  rewrite (similarity_value_sym self b a). split; reflexivity.
Qed.

Lemma X16_similarity_matrix_symmetric_witness :
  exists tr df,
    similarity_matrix Data.word2vec_store ["Mond"; "Sonne"; "See"] = (tr, inr df) /\
    forall a b, a ∈ ["Mond"; "Sonne"; "See"] -> b ∈ ["Mond"; "Sonne"; "See"] ->
      exists s : option F32.t,
        cells df !! (a, b) = Some (Obj s) /\
        cells df !! (b, a) = Some (Obj s).
Proof.
  apply (X16_similarity_matrix_symmetric Data.word2vec_store ["Mond"; "Sonne"; "See"]).
  - apply NoDup_ListNoDup.
    repeat (constructor; [simpl; intuition discriminate |]). constructor.
  - exact word2vec_store_table_ok.
Defined.

(** X17.  A listed word without a vector blanks its whole row and its
    whole column: every cell that pairs it with a listed word, the
    diagonal cell included, holds [None]. *)
Theorem X17_missing_word_blanks_row_and_column :
  forall (self : WordEmbeddings) (list_words : list string) (w : string),
    NoDup list_words ->
    table_ok self ->
    w ∈ list_words ->
    __getitem__ self w = None ->
    exists tr df,
      similarity_matrix self list_words = (tr, inr df) /\
      forall x, x ∈ list_words ->
        cells df !! (w, x) = Some (Obj None) /\
        cells df !! (x, w) = Some (Obj None).
Proof.
  intros self words w _ Hok Hw Hmiss.
  destruct (similarity_matrix_returns self words Hok) as (tr & df & Hrun & Hcells).
  exists tr, df. split; [exact Hrun |].
  intros x Hx. rewrite (Hcells w x Hw Hx), (Hcells x w Hx Hw).
  destruct (similarity_value_missing self w x Hmiss) as [-> ->].
  split; reflexivity.
Qed.

Lemma X17_missing_word_witness :
  exists tr df,
    similarity_matrix Data.word2vec_store ["Mond"; "Sonne"; "See"] = (tr, inr df) /\
    forall x, x ∈ ["Mond"; "Sonne"; "See"] ->
      cells df !! ("See", x) = Some (Obj None) /\
      cells df !! (x, "See") = Some (Obj None).
Proof.
  apply (X17_missing_word_blanks_row_and_column Data.word2vec_store
           ["Mond"; "Sonne"; "See"] "See").
  - apply NoDup_ListNoDup.
    repeat (constructor; [simpl; intuition discriminate |]). constructor.
  - exact word2vec_store_table_ok.
  - apply list_elem_of_In. simpl. auto.
  - vm_compute. reflexivity.
Defined.

(** A loop one of whose elements makes the body raise, whatever the state,
    raises. *)
Lemma for_each_raises {A S} (body : S -> A -> M S) (l : list A) (a : A) :
  a ∈ l ->
  (forall s, exists tr e, body s a = (tr, inl e)) ->
  forall s, exists tr e, for_each body l s = (tr, inl e).
Proof.
  intros Hin Hbad. induction l as [| b l IH]; intros s; [inversion Hin |].
  cbn [for_each]. destruct (body s b) as [tr [e | s']] eqn:Hb.
  - exists tr, e. reflexivity.
  - apply elem_of_cons in Hin as [-> | Hin].
    + destruct (Hbad s) as (tr' & e & Hbad'). congruence.
    + destruct (IH Hin s') as (tr' & e & Hloop).
      exists (tr ++ tr'), e. unfold bind. rewrite Hloop. reflexivity.
Qed.

(** X18.  Nothing in the loop catches an exception: if two listed words
    have vectors that are no valid pair, the loop raises and no frame is
    produced, whatever the other words are. *)
Theorem X18_invalid_pair_aborts_matrix :
  forall (self : WordEmbeddings) (list_words : list string)
         (w1 w2 : string) (v1 v2 : ndarray),
    NoDup list_words ->
    w1 ∈ list_words -> w2 ∈ list_words ->
    __getitem__ self w1 = Some v1 ->
    __getitem__ self w2 = Some v2 ->
    valid_pair v1 v2 = false ->
    exists tr e, similarity_matrix self list_words = (tr, inl e).
Proof.
  intros self words w1 w2 v1 v2 _ Hw1 Hw2 H1 H2 Hv. unfold similarity_matrix.
  apply (for_each_raises _ _ (w1, w2)).
  - apply elem_of_product2. auto.
  - intros df. rewrite (get_cosine_similarity_found _ _ _ _ _ H1 H2).
    destruct (cosine_similarity_raises v1 v2 Hv) as [msg ->].
    exists [], (ValueError msg). reflexivity.
Qed.

Lemma X18_invalid_pair_aborts_matrix_witness :
  exists tr e,
    similarity_matrix Data2.mixed_store ["Mond"; "Sonne"; "2"] = (tr, inl e).
Proof.
  apply (X18_invalid_pair_aborts_matrix Data2.mixed_store ["Mond"; "Sonne"; "2"]
           "Mond" "2" Data.v10 [F32.of_Z 3]).
  - apply NoDup_ListNoDup.
    repeat (constructor; [simpl; intuition discriminate |]). constructor.
  - apply list_elem_of_In. simpl. auto.
  - apply list_elem_of_In. simpl. auto.
  - vm_compute. reflexivity.
  - vm_compute. reflexivity.
  - reflexivity.
Defined.

(** The lines printed by the loop are those of its calls, in order. *)
Lemma fill_loop_printed self (ps : list (string * string)) df tr df' :
  for_each
    (fun df w12 =>
       let '(w1, w2) := w12 in
       s <- get_cosine_similarity self w1 w2 ;;
       DataFrame_setitem df w1 w2 s)
    ps df = (tr, inr df') ->
  flat_map (fun ev => match ev with Printed line => [line] | Open _ => [] end) tr
  = flat_map (fun p => printed (get_cosine_similarity self (fst p) (snd p))) ps.
Proof.
  revert df tr. induction ps as [| [w1 w2] ps IH]; intros df tr H.
  - injection H as <- _. reflexivity.
  - cbn [for_each] in H.
    apply bind_inv_returns in H as (tr1 & df1 & tr2 & Hbody & Hrest & ->).
    apply bind_inv_returns in Hbody as (ta & s & tb & Hs & Hset & ->).
    assert (tb = []) as ->.
    { unfold DataFrame_setitem in Hset.
      destruct (bool_decide (w1 ∈ columns df)); [| discriminate Hset].
      destruct (bool_decide (w2 ∈ index df)); injection Hset as <- _; reflexivity. }
    rewrite app_nil_r, flat_map_app. cbn [flat_map fst snd].
    rewrite (IH _ _ Hrest). unfold printed at 2. rewrite Hs. reflexivity.
Qed.

Lemma filter_row_length {A} (f : A -> bool) (a : A) (l' : list A) :
  length (List.filter (fun p => f (fst p) && f (snd p))
                      (map (fun y => (a, y)) l'))
  = if f a then length (List.filter f l') else 0%nat.
Proof.
  induction l' as [| b l' IH]; [destruct (f a); reflexivity |].
  cbn [map List.filter fst snd]. destruct (f a) eqn:Ha; cbn [andb].
  - destruct (f b); cbn [length]; rewrite IH; reflexivity.
  - exact IH.
Qed.

Lemma filter_list_prod_length {A} (f : A -> bool) (l l' : list A) :
  length (List.filter (fun p => f (fst p) && f (snd p)) (list_prod l l'))
  = (length (List.filter f l) * length (List.filter f l'))%nat.
Proof.
  induction l as [| a l IH]; [reflexivity |].
  cbn [list_prod]. rewrite List.filter_app, length_app, IH. cbn [List.filter].
  rewrite filter_row_length. destruct (f a); cbn [length]; lia.
Qed.

Lemma flat_map_count {A} (f : A -> bool) (g : A -> list string) (l : list A) :
  (forall a, length (g a) = if f a then 0%nat else 1%nat) ->
  (length (flat_map g l) + length (List.filter f l) = length l)%nat.
Proof.
  intros Hg. induction l as [| a l IH]; [reflexivity |].
  cbn [flat_map List.filter]. rewrite length_app, Hg.
  destruct (f a); cbn [length]; lia.
Qed.

(** X19.  Over a store that satisfies the table invariant, the loop for a
    list of [N] words of which the store finds [k] prints exactly
    [N * N - k * k] diagnostic lines: one for every ordered pair with a
    missing word, none for the others. *)
Theorem X19_number_of_diagnostics :
  forall (self : WordEmbeddings) (list_words : list string),
    table_ok self ->
    (length (printed (similarity_matrix self list_words))
     + found_count self list_words * found_count self list_words
     = length list_words * length list_words)%nat.
Proof.
  intros self words Hok.
  destruct (similarity_matrix_returns self words Hok) as (tr & df & Hrun & _).
  unfold printed at 1. rewrite Hrun. cbn [fst].
  unfold similarity_matrix in Hrun. rewrite (fill_loop_printed _ _ _ _ _ Hrun).
  unfold found_count, product2.
  rewrite <- (filter_list_prod_length
                (fun w => bool_decide (is_Some (__getitem__ self w))) words words).
  rewrite <- (length_prod words words).
  apply flat_map_count. intros [w1 w2]. cbn [fst snd].
  rewrite (printed_cases self w1 w2).
  destruct (__getitem__ self w1) as [v1 |], (__getitem__ self w2) as [v2 |];
    reflexivity.
Qed.

Lemma X19_number_of_diagnostics_witness :
  (length (printed (similarity_matrix Data.word2vec_store ["Mond"; "Sonne"; "See"]))
   + found_count Data.word2vec_store ["Mond"; "Sonne"; "See"]
     * found_count Data.word2vec_store ["Mond"; "Sonne"; "See"]
   = length ["Mond"; "Sonne"; "See"] * length ["Mond"; "Sonne"; "See"])%nat.
Proof.
  apply (X19_number_of_diagnostics Data.word2vec_store ["Mond"; "Sonne"; "See"]).
  exact word2vec_store_table_ok.
Defined.

(* ===================================================================== *)
(** * Properties of the reader *)
(* ===================================================================== *)

Lemma no_space_app (s t : string) :
  no_space (s ++ t) = no_space s && no_space t.
Proof.
  induction s as [| c s IH]; [reflexivity |].
  change (no_space (String c s ++ t))
    with (negb (is_space c) && no_space (s ++ t)).
  rewrite IH, andb_assoc. reflexivity.
Qed.

Lemma append_nil_r (s : string) : (s ++ "")%string = s.
Proof.
  induction s as [| c s IH]; [reflexivity |].
  change (String c (s ++ "")%string = String c s). rewrite IH. reflexivity.
Qed.

Lemma append_assoc (s t u : string) : ((s ++ t) ++ u)%string = (s ++ t ++ u)%string.
Proof.
  induction s as [| c s IH]; [reflexivity |].
  change (String c ((s ++ t) ++ u)%string = String c (s ++ t ++ u)%string).
  rewrite IH. reflexivity.
Qed.

Lemma append_not_empty (s : string) (c : ascii) : (s ++ String c "")%string <> "".
Proof. destruct s; discriminate. Qed.

(** Reading on through characters that are no whitespace. *)
Lemma split_from_token (tok t rest : string) :
  no_space t = true ->
  split_from tok (t ++ rest) = split_from (tok ++ t) rest.
Proof.
  revert tok. induction t as [| c t IH]; intros tok Ht.
  - rewrite append_nil_r. reflexivity.
  - cbn [no_space] in Ht. apply andb_prop in Ht as [Hc Ht].
    change (String c t ++ rest)%string with (String c (t ++ rest)%string).
    cbn [split_from]. apply negb_true_iff in Hc. rewrite Hc.
    rewrite (IH _ Ht), append_assoc. reflexivity.
Qed.

(** A whitespace character ends the token being read. *)
Lemma split_from_space (tok : string) (c : ascii) (rest : string) :
  tok <> "" -> is_space c = true ->
  split_from tok (String c rest) = tok :: split_from "" rest.
Proof.
  intros Hne Hc. cbn [split_from]. rewrite Hc.
  destruct tok; [congruence | reflexivity].
Qed.

Lemma is_token_inv (s : string) :
  is_token s = true -> s <> "" /\ no_space s = true.
Proof.
  unfold is_token. intros H. apply andb_prop in H as [Hne Hs].
  split; [| exact Hs]. intros ->. discriminate Hne.
Qed.

Lemma split_from_written (tok : string) (tokens : list string) :
  tok <> "" ->
  Forall (fun t => is_token t = true) tokens ->
  split_from tok
    (fold_right (fun t rest => (" " ++ t ++ rest)%string) (String "010" "") tokens)
  = tok :: tokens.
Proof.
  revert tok. induction tokens as [| t tokens IH]; intros tok Hne Hall.
  - cbn [fold_right]. rewrite split_from_space by (exact Hne || reflexivity).
    reflexivity.
  - apply Forall_cons in Hall as [Ht Hall]. apply is_token_inv in Ht as [Hte Hts].
    cbn [fold_right].
    change (" " ++ t ++ ?r)%string with (String " " (t ++ r)%string).
    rewrite split_from_space by (exact Hne || reflexivity).
    rewrite (split_from_token "" t _ Hts).
    change ("" ++ t)%string with t.
    rewrite (IH t Hte Hall). reflexivity.
Qed.

Lemma split_written (word : string) (tokens : list string) :
  is_token word = true ->
  Forall (fun t => is_token t = true) tokens ->
  split (write_line word tokens) = word :: tokens.
Proof.
  intros Hw Hall. apply is_token_inv in Hw as [Hne Hs].
  unfold split, write_line. rewrite (split_from_token "" word _ Hs).
  change ("" ++ word)%string with word.
  apply split_from_written; assumption.
Qed.

Lemma split_from_tokens (tok s : string) :
  no_space tok = true ->
  Forall (fun t => is_token t = true) (split_from tok s).
Proof.
  revert tok. induction s as [| c s IH]; intros tok Htok.
  - cbn [split_from]. destruct tok as [| a tok]; [constructor |].
    constructor; [| constructor]. unfold is_token. rewrite Htok. reflexivity.
  - cbn [split_from]. destruct (is_space c) eqn:Hc.
    + destruct tok as [| a tok]; [apply IH; reflexivity |].
      constructor; [| apply IH; reflexivity].
      unfold is_token. rewrite Htok. reflexivity.
    + apply IH. rewrite no_space_app, Htok. cbn [no_space]. rewrite Hc.
      reflexivity.
Qed.

Lemma split_all_space (s : string) : all_space s = true -> split s = [].
Proof.
  unfold split. induction s as [| c s IH]; [reflexivity |].
  cbn [all_space split_from]. intros H. apply andb_prop in H as [-> Hs].
  exact (IH Hs).
Qed.

Lemma is_ascii_app (s t : string) :
  is_ascii (s ++ t) = is_ascii s && is_ascii t.
Proof.
  induction s as [| c s IH]; [reflexivity |].
  change (is_ascii (String c s ++ t))
    with ((nat_of_ascii c <? 128)%nat && is_ascii (s ++ t)).
  rewrite IH, andb_assoc. reflexivity.
Qed.

Lemma is_word_inv (s : string) :
  is_word s = true -> is_token s = true /\ is_ascii s = true.
Proof. unfold is_word. intros H. apply andb_prop in H. exact H. Qed.

Lemma Forall_is_word_token (l : list string) :
  Forall (fun t => is_word t = true) l -> Forall (fun t => is_token t = true) l.
Proof.
  intros H. induction H as [| t l Ht _ IH]; constructor; [| exact IH].
  apply is_word_inv in Ht as [Ht _]. exact Ht.
Qed.

Lemma split_from_words (tok s : string) :
  no_space tok = true -> is_ascii tok = true -> is_ascii s = true ->
  Forall (fun t => is_word t = true) (split_from tok s).
Proof.
  revert tok. induction s as [| c s IH]; intros tok Htok Hatok Hs.
  - cbn [split_from]. destruct tok as [| a tok]; [constructor |].
    constructor; [| constructor]. unfold is_word, is_token.
    rewrite Htok, Hatok. reflexivity.
  - cbn [is_ascii] in Hs. apply andb_prop in Hs as [Hc Hs].
    cbn [split_from]. destruct (is_space c) eqn:Hsp.
    + destruct tok as [| a tok]; [apply IH; auto |].
      constructor; [| apply IH; auto].
      unfold is_word, is_token. rewrite Htok, Hatok. reflexivity.
    + apply IH; [| | exact Hs].
      * rewrite no_space_app, Htok. cbn [no_space]. rewrite Hsp. reflexivity.
      * rewrite is_ascii_app, Hatok. cbn [is_ascii]. rewrite Hc. reflexivity.
Qed.

(** X20.  For every line of ASCII text, the tokens the reader splits it
    into are never empty and hold no whitespace; so the raw label of a
    row read from such a line is a non-empty string without whitespace. *)
Theorem X20_split_yields_tokens :
  forall (float32 : string -> option F32.t) (line : string),
    is_ascii line = true ->
    Forall (fun t => is_word t = true) (split line) /\
    forall word coefs,
      read_line float32 line = inr (word, coefs) -> is_word word = true.
Proof.
  intros float32 line Hline.
  assert (Hall : Forall (fun t => is_word t = true) (split line)).
  { apply split_from_words; [reflexivity | reflexivity | exact Hline]. }
  split; [exact Hall |].
  intros word coefs. unfold read_line.
  destruct (split line) as [| w rest]; [discriminate |].
  apply Forall_cons in Hall as [Hw _].
  destruct (asarray float32 rest); [discriminate |].
  intros [= <- _]. exact Hw.
Qed.

Lemma X20_split_yields_tokens_witness :
  Forall (fun t => is_word t = true) (split "  haus  1 0 ") /\
  forall word coefs,
    read_line Data2.float32 "  haus  1 0 " = inr (word, coefs) ->
    is_word word = true.
Proof.
  apply (X20_split_yields_tokens Data2.float32 "  haus  1 0 ").
  reflexivity.
Defined.

Lemma read_lines_app float32 (lines1 lines2 : list string) rows1 :
  read_lines float32 lines1 = inr rows1 ->
  read_lines float32 (lines1 ++ lines2)
  = match read_lines float32 lines2 with
    | inl e => inl e
    | inr rows2 => inr (rows1 ++ rows2)
    end.
Proof.
  revert rows1. induction lines1 as [| line lines1 IH]; intros rows1 H.
  - injection H as <-. cbn [app]. destruct (read_lines float32 lines2); reflexivity.
  - cbn [read_lines app] in *. destruct (read_line float32 line) as [e | row];
      [discriminate |].
    destruct (read_lines float32 lines1) as [e | rows] eqn:H1; [discriminate |].
    injection H as <-. rewrite (IH rows eq_refl).
    destruct (read_lines float32 lines2); reflexivity.
Qed.

(** X21.  A line without any token, empty or of whitespace only, makes the
    reader raise [IndexError], and the reading of the file ends there:
    a blank line anywhere in a file, after lines that were read well,
    loses the whole load. *)
Theorem X21_blank_line_raises_index_error :
  forall (float32 : string -> option F32.t)
         (lines1 : list string) (line : string) (lines2 : list string)
         (rows1 : list (string * ndarray)),
    read_lines float32 lines1 = inr rows1 ->
    all_space line = true ->
    read_line float32 line = inl IndexError /\
    read_lines float32 (lines1 ++ line :: lines2) = inl IndexError.
Proof.
  intros float32 lines1 line lines2 rows1 H1 Hblank.
  assert (Hline : read_line float32 line = inl IndexError).
  { unfold read_line. rewrite (split_all_space line Hblank). reflexivity. }
  split; [exact Hline |].
  rewrite (read_lines_app _ _ _ _ H1). cbn [read_lines]. rewrite Hline.
  reflexivity.
Qed.

Lemma X21_blank_line_witness :
  read_line Data2.float32 (String "010" "") = inl IndexError /\
  read_lines Data2.float32 (["haus 1 0"] ++ String "010" "" :: ["baum 3 4"])
  = inl IndexError.
Proof.
  apply (X21_blank_line_raises_index_error Data2.float32 ["haus 1 0"]
           (String "010" "") ["baum 3 4"] [("haus", Data.v10)]).
  - reflexivity.
  - reflexivity.
Defined.

(** X22.  Round trip of a line of ASCII text: a label and number tokens,
    all ASCII, written on one line, separated by single spaces and ended
    by a newline, are read back as that label with the converted numbers;
    a line with a label alone is read as the label with an empty
    vector. *)
Theorem X22_read_line_round_trip :
  forall (float32 : string -> option F32.t)
         (word : string) (tokens : list string) (coefs : ndarray),
    is_word word = true ->
    Forall (fun t => is_word t = true) tokens ->
    asarray float32 tokens = inr coefs ->
    read_line float32 (write_line word tokens) = inr (word, coefs) /\
    length coefs = length tokens /\
    read_line float32 (write_line word []) = inr (word, []).
Proof.
  intros float32 word tokens coefs Hw Hall Hparse.
  apply is_word_inv in Hw as [Hw _]. apply Forall_is_word_token in Hall.
  split_and!.
  - unfold read_line. rewrite (split_written word tokens Hw Hall), Hparse.
    reflexivity.
  - clear Hall. revert coefs Hparse.
    induction tokens as [| t tokens IH]; intros coefs Hparse.
    + injection Hparse as <-. reflexivity.
    + cbn [asarray] in Hparse. destruct (float32 t); [| discriminate].
      destruct (asarray float32 tokens) as [e | cs]; [discriminate |].
      injection Hparse as <-. cbn [length]. rewrite (IH cs eq_refl). reflexivity.
  - unfold read_line. rewrite (split_written word [] Hw (List.Forall_nil _)).
    reflexivity.
Qed.

Lemma X22_read_line_round_trip_witness :
  read_line Data2.float32 (write_line "haus" ["3"; "4"]) = inr ("haus", Data.v34) /\
  length Data.v34 = length ["3"; "4"] /\
  read_line Data2.float32 (write_line "haus" []) = inr ("haus", []).
Proof.
  apply (X22_read_line_round_trip Data2.float32 "haus" ["3"; "4"] Data.v34).
  - reflexivity.
  - repeat constructor.
  - reflexivity.
Defined.

Lemma asarray_bad_token float32 (good : list string) (bad : string)
    (rest : list string) (coefs : ndarray) :
  asarray float32 good = inr coefs ->
  float32 bad = None ->
  asarray float32 (good ++ bad :: rest) = inl (FloatValueError bad).
Proof.
  revert coefs. induction good as [| t good IH]; intros coefs Hgood Hbad.
  - cbn [app asarray]. rewrite Hbad. reflexivity.
  - cbn [app asarray] in *. destruct (float32 t); [| discriminate].
    destruct (asarray float32 good) as [e | cs]; [discriminate |].
    rewrite (IH cs eq_refl Hbad). reflexivity.
Qed.

(** X23.  In a line of ASCII text, a token after the label that is no
    number makes the reader raise for that token, the first such one of
    the line, and the reading of the file ends there: rows after it are
    not read. *)
Theorem X23_bad_number_raises :
  forall (float32 : string -> option F32.t)
         (lines1 : list string) (rows1 : list (string * ndarray))
         (word : string) (good : list string) (bad : string)
         (rest : list string) (coefs : ndarray) (lines2 : list string),
    read_lines float32 lines1 = inr rows1 ->
    is_word word = true ->
    Forall (fun t => is_word t = true) (good ++ bad :: rest) ->
    asarray float32 good = inr coefs ->
    float32 bad = None ->
    read_lines float32
      (lines1 ++ write_line word (good ++ bad :: rest) :: lines2)
    = inl (FloatValueError bad).
Proof.
  intros float32 lines1 rows1 word good bad rest coefs lines2
         H1 Hw Hall Hgood Hbad.
  apply is_word_inv in Hw as [Hw _]. apply Forall_is_word_token in Hall.
  rewrite (read_lines_app _ _ _ _ H1). cbn [read_lines].
  unfold read_line. rewrite (split_written word _ Hw Hall).
  rewrite (asarray_bad_token _ _ _ _ _ Hgood Hbad). reflexivity.
Qed.

Lemma X23_bad_number_witness :
  read_lines Data2.float32
    (["haus 1 0"] ++ write_line "baum" (["3"] ++ "x" :: ["4"]) :: ["see 1 1"])
  = inl (FloatValueError "x").
Proof.
  apply (X23_bad_number_raises Data2.float32 ["haus 1 0"] [("haus", Data.v10)]
           "baum" ["3"] "x" ["4"] [F32.of_Z 3] ["see 1 1"]).
  - reflexivity.
  - reflexivity.
  - repeat constructor.
  - reflexivity.
  - reflexivity.
Defined.

(** The reader yields one row per line, in the order of the lines. *)
Lemma read_lines_Forall2 :
  forall (float32 : string -> option F32.t)
         (lines : list string) (rows : list (string * ndarray)),
    read_lines float32 lines = inr rows <->
    Forall2 (fun line row => read_line float32 line = inr row) lines rows.
Proof.
  intros float32 lines. induction lines as [| line lines IH]; intros rows.
  - split.
    + intros [= <-]. constructor.
    + intros H. inversion H. reflexivity.
  - cbn [read_lines]. split.
    + destruct (read_line float32 line) as [e | row] eqn:Hline; [discriminate |].
      destruct (read_lines float32 lines) as [e | rows'] eqn:Hrest; [discriminate |].
      intros [= <-]. constructor; [exact Hline |]. apply IH. reflexivity.
    + intros H. inversion H as [| l r ls rs Hl Hrs]; subst.
      rewrite Hl. apply IH in Hrs. rewrite Hrs. reflexivity.
Qed.

(* ===================================================================== *)
(** * Properties of the last cell as a whole *)
(* ===================================================================== *)

Lemma bindR_returns {A B} (m : R A) (k : A -> R B) tr a tr' r :
  m = (tr, inr a) -> k a = (tr', r) -> bindR m k = (tr ++ tr', r).
Proof. intros -> Hk. unfold bindR. rewrite Hk. reflexivity. Qed.

Lemma for_in_app {A} (body : A -> R unit) (l1 l2 : list A) tr1 :
  for_in body l1 = (tr1, inr tt) ->
  for_in body (l1 ++ l2) = (tr1 ++ fst (for_in body l2), snd (for_in body l2)).
Proof.
  revert tr1. induction l1 as [| a l1 IH]; intros tr1 H.
  - injection H as <-. cbn [app]. destruct (for_in body l2). reflexivity.
  - cbn [for_in app] in *. unfold bindR in *.
    destruct (body a) as [ta [e | []]]; [discriminate |].
    destruct (for_in body l1) as [tb [e | []]] eqn:H1; [discriminate |].
    injection H as <-. rewrite (IH tb eq_refl).
    rewrite app_assoc. reflexivity.
Qed.

(** X25.  A source whose store cannot be constructed ends the run with
    the exception of the construction: the events of the sources before it
    stand as they were (their files stay written), after its [Load] line
    come only the events of the failed construction, and the sources after
    it are not touched. *)
Theorem X25_failed_source_ends_run :
  forall (fs : filesystem) (named_lists : list (string * list string))
         (before : list string) (et : string) (after : list string)
         tr1 tr0 (e : exn),
    run fs before named_lists = (tr1, inr tt) ->
    __init__ fs et "./word_vectors" = (tr0, inl e) ->
    run fs (before ++ et :: after) named_lists
    = (tr1 ++ Core (Printed ("Load " ++ et ++ " embeddings...")) :: map Core tr0,
       inl e) /\
    written (tr1 ++ Core (Printed ("Load " ++ et ++ " embeddings...")) :: map Core tr0)
    = written tr1.
Proof.
  intros fs lists before et after tr1 tr0 e Hbefore Hinit. split.
  - unfold run in *. rewrite (for_in_app _ _ _ _ Hbefore).
    cbn [for_in]. unfold process_source at 1 3. unfold lift. rewrite Hinit.
    reflexivity.
  - unfold written. rewrite flat_map_app. cbn [flat_map].
    replace (flat_map _ (map Core tr0)) with (@nil (string * DataFrame));
      [rewrite app_nil_r; reflexivity |].
    clear Hinit. induction tr0 as [| ev tr0 IH]; [reflexivity | exact IH].
Qed.

Lemma X25_failed_source_witness :
  run Data.word2vec_fs (["word2vec"] ++ "GloVe" :: ["ConceptNet"]) Data2.named_lists
  = (fst (run Data.word2vec_fs ["word2vec"] Data2.named_lists)
       ++ Core (Printed ("Load " ++ "GloVe" ++ " embeddings..."))
          :: map Core [Open "./word_vectors/ger_glove_vectors.txt"],
     inl (FileNotFoundError "./word_vectors/ger_glove_vectors.txt")) /\
  written (fst (run Data.word2vec_fs ["word2vec"] Data2.named_lists)
             ++ Core (Printed ("Load " ++ "GloVe" ++ " embeddings..."))
                :: map Core [Open "./word_vectors/ger_glove_vectors.txt"])
  = written (fst (run Data.word2vec_fs ["word2vec"] Data2.named_lists)).
Proof.
  apply (X25_failed_source_ends_run Data.word2vec_fs Data2.named_lists
           ["word2vec"] "GloVe" ["ConceptNet"]).
  - vm_compute. reflexivity.
  - reflexivity.
Defined.

Lemma written_app (t1 t2 : list run_event) :
  written (t1 ++ t2) = written t1 ++ written t2.
Proof. unfold written. apply flat_map_app. Qed.

Lemma written_core (t : list event) : written (map Core t) = [].
Proof. induction t as [| ev t IH]; [reflexivity | exact IH]. Qed.

(** The name of an output file, for a list name that is no absolute
    path. *)
Lemma output_file_name (list_name et : string) :
  startswith list_name "/" = false ->
  join "./out" ((list_name ++ "_" ++ et) ++ ".csv")
  = ("./out/" ++ (list_name ++ "_" ++ et) ++ ".csv")%string.
Proof.
  intros Hrel. unfold join.
  assert (Hkey : startswith ((list_name ++ "_" ++ et) ++ ".csv") "/" = false).
  { destruct list_name as [| c name]; [reflexivity |].
    unfold startswith in *. cbn [String.prefix] in Hrel.
    change (String.prefix "/" (String c ((name ++ "_" ++ et) ++ ".csv")) = false).
    cbn [String.prefix]. destruct (ascii_dec "/" c); [| reflexivity].
    destruct name; discriminate Hrel. }
  rewrite Hkey. reflexivity.
Qed.

(** One word list with a store that satisfies the table invariant: the
    line announcing the computation, the events of the loop, the line
    announcing the file, and the file. *)
Lemma process_list_returns self et (list_name : string) (list_words : list string) :
  table_ok self ->
  startswith list_name "/" = false ->
  exists trm df,
    similarity_matrix self list_words = (trm, inr df) /\
    process_list self et (list_name, list_words)
    = (Core (Printed ("compute similarities for " ++ list_name ++ " with "
                      ++ et ++ " embeddings"))
         :: map Core trm
         ++ [Core (Printed ("save to file " ++ "./out/"
                            ++ (list_name ++ "_" ++ et) ++ ".csv"));
             ToCsv ("./out/" ++ (list_name ++ "_" ++ et) ++ ".csv") df],
       inr tt).
Proof.
  intros Hok Hrel.
  destruct (similarity_matrix_returns self list_words Hok) as (trm & df & Hrun & _).
  exists trm, df. split; [exact Hrun |].
  unfold process_list. rewrite (output_file_name _ _ Hrel).
  unfold lift. rewrite Hrun. reflexivity.
Qed.

Lemma process_lists_returns self et (named_lists : list (string * list string)) :
  table_ok self ->
  (forall name words, In (name, words) named_lists -> startswith name "/" = false) ->
  exists tr,
    for_in (process_list self et) named_lists = (tr, inr tt) /\
    Forall2 (fun nl w =>
               fst w = ("./out/" ++ (fst nl ++ "_" ++ et) ++ ".csv")%string /\
               returned (similarity_matrix self (snd nl)) = Some (snd w))
            named_lists (written tr).
Proof.
  intros Hok. induction named_lists as [| [name words] lists IH]; intros Hrel.
  - exists []. split; [reflexivity | constructor].
  - destruct (process_list_returns self et name words Hok) as (trm & df & Hm & Hp).
    { apply (Hrel name words). left. reflexivity. }
    destruct IH as (tr & Hloop & Hall).
    { intros n ws Hin. apply (Hrel n ws). right. exact Hin. }
    eexists. split.
    + cbn [for_in]. apply (bindR_returns _ _ _ tt _ _ Hp Hloop).
    + rewrite written_app.
      change (Core ?p :: map Core trm ++ ?l) with ([Core p] ++ map Core trm ++ l).
      rewrite !written_app, written_core. cbn [written flat_map app].
      constructor; [| exact Hall]. cbn [fst snd]. rewrite Hm. split; reflexivity.
Qed.

(** X26.  A source whose store is constructed and satisfies the table
    invariant is processed to its end: it writes one file per word list,
    in the order of the lists; the file of a list is named
    [./out/<list name>_<embedding type>.csv], with the embedding type
    spelled as it was given, and holds the similarity matrix of that
    list. *)
Theorem X26_source_writes_one_file_per_list :
  forall (fs : filesystem) (named_lists : list (string * list string))
         (et : string) tr0 (self : WordEmbeddings),
    __init__ fs et "./word_vectors" = (tr0, inr self) ->
    table_ok self ->
    (forall name words, In (name, words) named_lists ->
                        NoDup words /\ startswith name "/" = false) ->
    exists tr,
      process_source fs named_lists et = (tr, inr tt) /\
      length (written tr) = length named_lists /\
      Forall2 (fun nl w =>
                 fst w = ("./out/" ++ (fst nl ++ "_" ++ et) ++ ".csv")%string /\
                 returned (similarity_matrix self (snd nl)) = Some (snd w))
              named_lists (written tr).
Proof.
  intros fs lists et tr0 self Hinit Hok Hlists.
  destruct (process_lists_returns self et lists Hok) as (tr & Hloop & Hall).
  { intros n ws Hin. apply (Hlists n ws Hin). }
  exists (Core (Printed ("Load " ++ et ++ " embeddings...")) :: map Core tr0 ++ tr).
  assert (Hw : written (Core (Printed ("Load " ++ et ++ " embeddings..."))
                          :: map Core tr0 ++ tr) = written tr).
  { change (Core ?p :: ?l) with ([Core p] ++ l).
    rewrite !written_app, written_core. reflexivity. }
  split_and!.
  - unfold process_source, lift. rewrite Hinit. cbn [fst snd].
    unfold bindR at 1. cbn [print]. unfold bindR at 1. rewrite Hloop.
    reflexivity.
  - rewrite Hw. symmetry. apply (Forall2_length _ _ _ Hall).
  - rewrite Hw. exact Hall.
Qed.

Lemma X26_source_writes_one_file_per_list_witness :
  exists tr,
    process_source Data.word2vec_fs Data2.named_lists "word2vec" = (tr, inr tt) /\
    length (written tr) = length Data2.named_lists /\
    Forall2 (fun nl w =>
               fst w = ("./out/" ++ (fst nl ++ "_" ++ "word2vec") ++ ".csv")%string /\
               returned (similarity_matrix Data.word2vec_store (snd nl)) = Some (snd w))
            Data2.named_lists (written tr).
Proof.
  apply (X26_source_writes_one_file_per_list Data.word2vec_fs Data2.named_lists
           "word2vec" [Open "./word_vectors/ger_word2vec_vectors.txt"]
           Data.word2vec_store).
  - reflexivity.
  - exact word2vec_store_table_ok.
  - intros name words [[= <- <-] | [[= <- <-] | []]]; split; try reflexivity;
      apply NoDup_ListNoDup;
      repeat (constructor; [simpl; intuition discriminate |]); constructor.
Defined.

(** ** From the lines of a file to the lookup *)

Lemma vstack_uniform (rows : list ndarray) (d : nat) :
  rows <> [] -> (forall r, In r rows -> length r = d) ->
  vstack rows = ([], inr rows).
Proof.
  intros Hne Hd. unfold vstack. destruct rows as [| r rest]; [congruence |].
  replace (forallb (fun r' => (length r' =? length r)%nat) rest) with true;
    [reflexivity |].
  symmetry. apply forallb_forall. intros r' Hin. apply Nat.eqb_eq.
  rewrite (Hd r') by (right; exact Hin). rewrite (Hd r) by (left; reflexivity).
  reflexivity.
Qed.

(** A file written line by line from a table is read back as that table. *)
Lemma read_lines_written float32 (items : list (string * list string * ndarray)) :
  (forall word tokens coefs, In (word, tokens, coefs) items ->
     is_token word = true /\
     Forall (fun t => is_token t = true) tokens /\
     asarray float32 tokens = inr coefs) ->
  read_lines float32
    (map (fun it => write_line (fst (fst it)) (snd (fst it))) items)
  = inr (map (fun it => (fst (fst it), snd it)) items).
Proof.
  induction items as [| [[word tokens] coefs] items IH]; intros Hall;
    [reflexivity |].
  cbn [map read_lines fst snd].
  destruct (Hall word tokens coefs) as (Hw & Ht & Hp); [left; reflexivity |].
  unfold read_line. rewrite (split_written word tokens Hw Ht), Hp.
  rewrite IH; [reflexivity |].
  intros w t c Hin. apply (Hall w t c). right. exact Hin.
Qed.

(** X24.  From the file to the lookup, GloVe source: a file of ASCII
    text written line by line from a non-empty table with pairwise
    distinct lowercase labels and number rows of one length is loaded into
    a store in which every label of the table is found with its own
    vector, by every key that [str.lower] takes to the label. *)
Theorem X24_glove_file_to_lookup :
  forall (str_lower : string -> string) (float32 : string -> option F32.t)
         (fs : filesystem) (et base : string)
         (items : list (string * list string * ndarray))
         (rows : list (string * ndarray)) (d : nat),
    lowers_ascii str_lower ->
    casefold et = "glove" ->
    items <> [] ->
    (forall word tokens coefs, In (word, tokens, coefs) items ->
       is_word word = true /\
       Forall (fun t => is_word t = true) tokens /\
       asarray float32 tokens = inr coefs /\
       length coefs = d /\ lower word = word) ->
    NoDup (map (fun it => fst (fst it)) items) ->
    read_lines float32
      (map (fun it => write_line (fst (fst it)) (snd (fst it))) items)
    = inr rows ->
    fs (join base "ger_glove_vectors.txt") = Some rows ->
    exists self,
      __init__ fs et base
      = ([Open (join base "ger_glove_vectors.txt")], inr self) /\
      forall word tokens coefs key,
        In (word, tokens, coefs) items -> str_lower key = word ->
        getitem str_lower self key = Some coefs.
Proof.
  intros str_lower float32 fs et base items rows d Hlow Het Hne Hall Hnd Hread Hfs.
  rewrite read_lines_written in Hread.
  2:{ intros w t c Hin. destruct (Hall w t c Hin) as (Hw & Ht & Hp & _).
      apply is_word_inv in Hw as [Hw _]. apply Forall_is_word_token in Ht.
      auto. }
  injection Hread as <-.
  set (rows := map (fun it : string * list string * ndarray => (fst (fst it), snd it)) items) in *.
  assert (Hvs : vstack (map snd rows) = ([], inr (map snd rows))).
  { apply (vstack_uniform _ d).
    - destruct items; [congruence | discriminate].
    - intros r Hr. apply in_map_iff in Hr as ([w c] & <- & Hr).
      apply in_map_iff in Hr as ([[w' t'] c'] & [= <- <-] & Hr).
      destruct (Hall w' t' c' Hr) as (_ & _ & _ & Hlen & _). exact Hlen. }
  pose proof (read_embeddings_glove _ _ _ _ _ Het Hfs Hvs) as Hre.
  assert (Hinit : __init__ fs et base
                  = ([Open (join base "ger_glove_vectors.txt")],
                     inr {| embedding_type := et;
                            word_vectors := map snd rows;
                            vector_labels := map fst rows;
                            dict := make_embedding_map (map snd rows) (map fst rows) |})).
  { unfold __init__. rewrite Hre. reflexivity. }
  eexists. split; [exact Hinit |].
  intros word tokens coefs key Hin Hkey.
  rewrite (getitem_constructed_with _ _ _ _ _ _ key Hlow Hinit), Hkey.
  cbn [dict].
  apply list_elem_of_In, list_elem_of_lookup in Hin as [i Hi].
  unfold make_embedding_map. apply (py_dict_last _ i).
  + rewrite lookup_combine. unfold rows.
    change (map ?f ?l) with (f <$> l). rewrite !list_lookup_fmap, Hi.
    reflexivity.
  + intros j v' Hj Hdup. rewrite lookup_combine in Hdup. unfold rows in Hdup.
    change (map ?f ?l) with (f <$> l) in Hdup.
    rewrite !list_lookup_fmap in Hdup.
    destruct (items !! j) as [[[w' t'] c'] |] eqn:Ej; [| discriminate Hdup].
    cbn in Hdup. injection Hdup as Hw' _. subst w'.
    assert (Heq : i = j); [| lia].
    apply (NoDup_lookup _ i j word Hnd).
    * change (map ?f ?l) with (f <$> l). rewrite list_lookup_fmap, Hi.
      reflexivity.
    * change (map ?f ?l) with (f <$> l). rewrite list_lookup_fmap, Ej.
      reflexivity.
Qed.

Lemma X24_glove_file_to_lookup_witness :
  exists self,
    __init__ (Data.fs "ger_glove_vectors.txt" [("haus", Data.v10); ("baum", Data.v34)])
             "GloVe" Data.base_dir
    = ([Open (join Data.base_dir "ger_glove_vectors.txt")], inr self) /\
    forall word tokens coefs key,
      In (word, tokens, coefs)
         [("haus", ["1"; "0"], Data.v10); ("baum", ["3"; "4"], Data.v34)] ->
      lower_latin key = word ->
      getitem lower_latin self key = Some coefs.
Proof.
  apply (X24_glove_file_to_lookup lower_latin Data2.float32
           (Data.fs "ger_glove_vectors.txt" [("haus", Data.v10); ("baum", Data.v34)])
           "GloVe" Data.base_dir
           [("haus", ["1"; "0"], Data.v10); ("baum", ["3"; "4"], Data.v34)]
           [("haus", Data.v10); ("baum", Data.v34)] 2).
  - exact lowers_ascii_lower_latin.
  - reflexivity.
  - discriminate.
  - intros word tokens coefs [[= <- <- <-] | [[= <- <- <-] | []]];
      split_and!; try reflexivity; repeat constructor.
  - apply NoDup_ListNoDup.
    repeat (constructor; [simpl; intuition discriminate |]). constructor.
  - reflexivity.
  - reflexivity.
Defined.
